(** * ash_calc: moist-air balance report of a fixed-bed air-handling rig

    A shallow embedding of [ash_calc.py] and the properties of its
    functions.

    Modelling conventions.
    - A Python [float] is a real number ([R]): arithmetic is exact and
      unbounded, so rounding, overflow and the special values inf and nan
      are outside the model.  [math.pi] is [PI]; [x ** n] with a literal
      [n] is [x ^ n].  An [int] is an integer ([Z]); [float] of an int
      that no double can hold raises OverflowError, as in Python.
    - A Python call either returns a value or raises: [Py.result].  The
      only arithmetic that raises in the model is a division by zero
      ([Py.div], ZeroDivisionError); divisions by a non-zero literal are
      written with [/].
    - The workbook read through openpyxl is a total map from (row, column)
      to a cell value, looked up at rows 1 to 1048576 and columns from 1;
      the file system maps a path to the active sheet of the workbook
      stored there, or to the exception [load_workbook] raises.
    - psychrolib is imported, not part of the program: its functions are
      variables of the section that holds the program.  Its
      standard-atmosphere function is also given by its documented SI
      relation ([psychrolib_SI]).
    - The Tk widgets are a record: the text of the entry and the content
      of the output widget. *)

From Stdlib Require Import Reals Lra ZArith Lia List String Bool.
Import ListNotations.
Local Open Scope R_scope.

(** ** Python results and exceptions *)

Module Py.

Inductive exn : Type :=
| ValueError
| TypeError
| ZeroDivisionError
| OverflowError
| FileNotFoundError
| InvalidFileException.

Inductive result (A : Type) : Type :=
| Ok (a : A)
| Raise (e : exn).

Arguments Ok {A} a.
Arguments Raise {A} e.

Definition bind {A B : Type} (c : result A) (k : A -> result B) : result B :=
  match c with
  | Ok a => k a
  | Raise e => Raise e
  end.

(** [x / y] on floats. *)
Definition div (x y : R) : result R :=
  if Req_dec_T y 0 then Raise ZeroDivisionError else Ok (x / y).

(** [a, b, c = l] for a list [l]. *)
Definition unpack3 (l : list R) : result (R * R * R) :=
  match l with
  | [a; b; c] => Ok (a, b, c)
  | _ => Raise ValueError
  end.

(** [float(z)] for an int [z]: a double holds [z], up to rounding, when
    [|z| < 2^1024 - 2^970]; beyond, the conversion raises OverflowError
    ("int too large to convert to float"). *)
Definition float_of_int (z : Z) : result R :=
  if (2 ^ 1024 - 2 ^ 970 <=? Z.abs z)%Z then Raise OverflowError
  else Ok (IZR z).

(** [range(n)]. *)
Definition range (n : Z) : list Z := map Z.of_nat (seq 0 (Z.to_nat n)).

End Py.

Import Py.

Notation "x <- c ;; k" := (bind c (fun x => k))
  (at level 61, c at next level, right associativity).
Notation "' pat <- c ;; k" := (bind c (fun x => match x with pat => k end))
  (at level 61, pat pattern, c at next level, right associativity).

(** ** The workbook *)

(** What [cell.value] can be for a cell read from a file. *)
Inductive cell_value : Type :=
| CNone                      (* an empty cell: None *)
| CNumber (x : R)            (* float *)
| CInt (z : Z)               (* int *)
| CBool (b : bool)
| CText (s : string)
| CDate (serial : Z).        (* datetime, date, time, timedelta *)

Definition worksheet : Type := Z -> Z -> cell_value.

(** The last row of a worksheet. *)
Definition max_row : Z := 1048576.

(** [sheet.cell(row, column).value]; openpyxl refuses coordinates below 1
    and rows after the last one. *)
Definition cell (sheet : worksheet) (row column : Z) : result cell_value :=
  if ((row <? 1) || (column <? 1))%Z then Raise ValueError
  else if (max_row <? row)%Z then Raise ValueError
  else Ok (sheet row column).

(** [openpyxl.load_workbook(path).active] *)
Definition filesystem : Type := string -> result worksheet.

(** ** psychrolib's standard atmosphere, SI units *)

Module psychrolib_SI.

(** [101325 * math.pow(1 - 2.25577e-05 * Altitude, 5.2559)]
    (ASHRAE Handbook Fundamentals 2017, ch. 1 eq. 3).  [math.pow] raises
    ValueError on a negative base with a fractional exponent. *)
Definition GetStandardAtmPressure (Altitude : R) : result R :=
  let base := 1 - 2.25577e-05 * Altitude in
  if Rlt_dec base 0 then Raise ValueError
  else if Req_dec_T base 0 then Ok (101325 * 0)
  else Ok (101325 * Rpower base 5.2559).

End psychrolib_SI.

(** ** The output message *)

(** A formatted string, kept as its pieces: literal text, a number put in
    place of a [{}] and the line ends. *)
Inductive piece : Type :=
| Txt (s : string)
| Num (x : R)
| Newline.

Definition message : Type := list piece.

(** ["pre{}post\n".format(x)] *)
Definition fmt (pre : string) (x : R) (post : string) : message :=
  [Txt pre; Num x; Txt post; Newline].

(** ** Records for the values [process_file] computes *)

(** Lines 319-331. *)
Record resin_bed : Type := {
  resin_diameter_m : R;
  resin_radius : R;
  single_sphere_surface_area : R;
  single_sphere_volume : R;
  total_resin_volume : R;
  rough_number_of_spheres : R;
  total_surface_area : R
}.

(** Lines 372-376. *)
Record chamber_flow : Type := {
  c_radius : R;
  chamber_area : R;
  c_area_m2 : R;
  air_m3_s : R;
  chamber_speed : R
}.

(** The variables of one data set (the source names them with the suffix
    [_inlet] or [_outlet]). *)
Record station : Type := {
  dry_bulb_temperature : R;
  relative_humidity : R;
  co2_level : R;
  wet_bulb_temperature : R;
  humidity_ratio : R;
  dew_point_temperature : R;
  calc_relative_humidity : R;
  partial_pressure : R;
  moist_air_enthalpy : R;
  specific_volume : R;
  degree_of_saturation : R;
  dry_air_enthalpy : R;
  air_density : R;
  co2_flow : R
}.

Record report : Type := {
  altitude : R;
  air_flow : R;
  resin_diameter : R;
  resin_mass : R;
  resin_density : R;
  chamber_diameter : R;
  pressure : R;
  resin : resin_bed;
  inlet : station;
  outlet : station;
  co2_change : R;
  co2_change_label : string;
  mass_flow : R;
  energy_flux_inlet : R;
  energy_flux_outlet : R;
  chamber : chamber_flow
}.

(** The widgets [process_file] touches. *)
Record gui : Type := {
  entry_file_path : string;
  text_output : message
}.

(** ** The program *)

Section AshCalc.

(** [float(s)] for a str [s]: the number it reads as, [None] when it
    raises ValueError. *)
Variable float_of_str : string -> option R.

(** The psychrolib functions the program calls (unit system SI, set once
    at import). *)
Variable GetTWetBulbFromRelHum : R -> R -> R -> result R.
Variable GetHumRatioFromRelHum : R -> R -> R -> result R.
Variable GetVapPresFromRelHum : R -> R -> result R.
Variable GetDryAirEnthalpy : R -> result R.
Variable GetMoistAirEnthalpy : R -> R -> result R.
Variable GetMoistAirDensity : R -> R -> R -> result R.
Variable CalcPsychrometricsFromTWetBulb :
  R -> R -> R -> result (R * R * R * R * R * R * R).
Variable GetStandardAtmPressure : R -> result R.

(** [float(value)] for a cell value. *)
Definition py_float (value : cell_value) : result R :=
  match value with
  | CNone => Raise TypeError
  | CNumber x => Ok x
  | CInt z => float_of_int z
  | CBool b => Ok (if b then 1 else 0)
  | CText s =>
      match float_of_str s with
      | Some x => Ok x
      | None => Raise ValueError
      end
  | CDate _ => Raise TypeError
  end.

Definition calculate_wet_bulb_temperature
  (dry_bulb_temperature relative_humidity pressure : R) : result R :=
  let relative_humidity_decimal := relative_humidity / 100 in
  GetTWetBulbFromRelHum dry_bulb_temperature relative_humidity_decimal pressure.

Definition calculate_humidity_ratio
  (dry_bulb_temperature relative_humidity pressure : R) : result R :=
  let relative_humidity_decimal := relative_humidity / 100 in
  GetHumRatioFromRelHum dry_bulb_temperature relative_humidity_decimal pressure.

Definition calculate_partial_vapor_pressure
  (dry_bulb_temperature relative_humidity : R) : result R :=
  let relative_humidity_decimal := relative_humidity / 100 in
  GetVapPresFromRelHum dry_bulb_temperature relative_humidity_decimal.

Definition calculate_dry_air_enthalpy (dry_bulb_temperature : R) : result R :=
  GetDryAirEnthalpy dry_bulb_temperature.

Definition calculate_wet_air_enthalpy
  (dry_bulb_temperature humidity_ratio : R) : result R :=
  GetMoistAirEnthalpy dry_bulb_temperature humidity_ratio.

Definition calculate_air_density
  (dry_bulb_temperature humidity_ratio pressure : R) : result R :=
  GetMoistAirDensity dry_bulb_temperature humidity_ratio pressure.

Definition calculate_psychrometrics
  (dry_bulb_temperature wet_bulb_temperature pressure : R)
  : result (R * R * R * R * R * R * R) :=
  CalcPsychrometricsFromTWetBulb dry_bulb_temperature wet_bulb_temperature pressure.

Definition calculate_pressure_from_altitude (altitude : R) : result R :=
  GetStandardAtmPressure altitude.

(** The loop of [read_excel_data]: [rows] is what is left of
    [range(num_of_rows)]. *)
Fixpoint read_rows (sheet : worksheet) (col start_row : Z) (rows : list Z)
  (data_list : list R) : result (list R) :=
  match rows with
  | [] => Ok data_list
  | row :: rows' =>
      value <- cell sheet (row + start_row) col ;;
      match py_float value with
      | Ok numeric_value =>
          read_rows sheet col start_row rows' (data_list ++ [numeric_value])
      | Raise ValueError | Raise TypeError =>
          read_rows sheet col start_row rows' (data_list ++ [0])
      | Raise e => Raise e
      end
  end.

Definition read_excel_data (fs : filesystem) (file_path : string)
  (col start_row num_of_rows : Z) : result (list R) :=
  sheet <- fs file_path ;;
  read_rows sheet col start_row (range num_of_rows) [].

Definition get_altitude_and_airflow (fs : filesystem) (file_path : string)
  : result (R * R * R * R * R * R) :=
  sheet <- fs file_path ;;
  altitude <- (v <- cell sheet 5 3 ;; py_float v) ;;
  air_flow <- (v <- cell sheet 6 3 ;; py_float v) ;;
  resin_diameter <- (v <- cell sheet 5 7 ;; py_float v) ;;
  resin_mass <- (v <- cell sheet 6 7 ;; py_float v) ;;
  resin_density <- (v <- cell sheet 7 7 ;; py_float v) ;;
  chamber_diameter <- (v <- cell sheet 9 7 ;; py_float v) ;;
  Ok (altitude, air_flow, resin_diameter, resin_mass, resin_density,
      chamber_diameter).

Definition calculate_energy_flux (moist_air_enthalpy mass_flow : R) : R :=
  moist_air_enthalpy * mass_flow.

Definition calculate_co2_flow (co2_level air_flow : R) : R :=
  co2_level * air_flow.

Definition calculate_co2_change (co2_flow_inlet co2_flow_outlet : R) : R :=
  co2_flow_outlet - co2_flow_inlet.

Definition calculate_co2_change_label (co2_change : R) : string :=
  if Rlt_dec 0 co2_change then "CO2 Release"%string
  else if Rlt_dec co2_change 0 then "CO2 Capture"%string
  else "No Change in CO2"%string.

(** [process_file], lines 319-331: one resin sphere and the resin bed. *)
Definition resin_bed_geometry (resin_diameter resin_mass resin_density : R)
  : result resin_bed :=
  let resin_diameter_m := resin_diameter / 1000 in
  let resin_radius := resin_diameter_m / 2 in
  let single_sphere_surface_area := PI * resin_diameter_m ^ 2 in
  let single_sphere_volume := (4 / 3) * PI * resin_radius ^ 3 in
  specific <- div resin_density resin_mass ;;
  total_resin_volume <- div 1 specific ;;
  rough_number_of_spheres <- div total_resin_volume single_sphere_volume ;;
  let total_surface_area := rough_number_of_spheres * single_sphere_surface_area in
  Ok {| resin_diameter_m := resin_diameter_m;
        resin_radius := resin_radius;
        single_sphere_surface_area := single_sphere_surface_area;
        single_sphere_volume := single_sphere_volume;
        total_resin_volume := total_resin_volume;
        rough_number_of_spheres := rough_number_of_spheres;
        total_surface_area := total_surface_area |}.

(** [process_file], lines 334-344 (rows 8 to 10) and 347-357 (rows 12 to
    14): one data set of column 3 and its psychrometric state. *)
Definition station_data (fs : filesystem) (file_path : string)
  (start_row : Z) (pressure air_flow : R) : result station :=
  data <- read_excel_data fs file_path 3 start_row 3 ;;
  '(dry_bulb_temperature, relative_humidity, co2_level) <- unpack3 data ;;
  wet_bulb_temperature <-
    calculate_wet_bulb_temperature dry_bulb_temperature relative_humidity pressure ;;
  '(humidity_ratio, dew_point_temperature, calc_relative_humidity,
    partial_pressure, moist_air_enthalpy, specific_volume,
    degree_of_saturation) <-
    calculate_psychrometrics dry_bulb_temperature wet_bulb_temperature pressure ;;
  dry_air_enthalpy <- calculate_dry_air_enthalpy dry_bulb_temperature ;;
  air_density <- calculate_air_density dry_bulb_temperature humidity_ratio pressure ;;
  let co2_flow := calculate_co2_flow co2_level air_flow in
  Ok {| dry_bulb_temperature := dry_bulb_temperature;
        relative_humidity := relative_humidity;
        co2_level := co2_level;
        wet_bulb_temperature := wet_bulb_temperature;
        humidity_ratio := humidity_ratio;
        dew_point_temperature := dew_point_temperature;
        calc_relative_humidity := calc_relative_humidity;
        partial_pressure := partial_pressure;
        moist_air_enthalpy := moist_air_enthalpy;
        specific_volume := specific_volume;
        degree_of_saturation := degree_of_saturation;
        dry_air_enthalpy := dry_air_enthalpy;
        air_density := air_density;
        co2_flow := co2_flow |}.

(** [process_file], lines 372-376: the chamber and the gas speed in it. *)
Definition chamber_gas_speed (chamber_diameter air_flow : R)
  : result chamber_flow :=
  let c_radius := chamber_diameter / 2 in
  let chamber_area := PI * (c_radius ^ 2) in
  let c_area_m2 := chamber_area / 10000 in
  let air_m3_s := air_flow / 1000 in
  chamber_speed <- div air_m3_s c_area_m2 ;;
  Ok {| c_radius := c_radius;
        chamber_area := chamber_area;
        c_area_m2 := c_area_m2;
        air_m3_s := air_m3_s;
        chamber_speed := chamber_speed |}.

(** [process_file], lines 312-376: what the [try] block computes before it
    writes the message. *)
Definition process_file_try (fs : filesystem) (file_path : string)
  : result report :=
  let file_path := (file_path ++ ".xlsx")%string in
  '(altitude, air_flow, resin_diameter, resin_mass, resin_density,
    chamber_diameter) <- get_altitude_and_airflow fs file_path ;;
  pressure <- calculate_pressure_from_altitude altitude ;;
  resin <- resin_bed_geometry resin_diameter resin_mass resin_density ;;
  inlet <- station_data fs file_path 8 pressure air_flow ;;
  outlet <- station_data fs file_path 12 pressure air_flow ;;
  let co2_change := calculate_co2_change (co2_flow inlet) (co2_flow outlet) in
  let co2_change_label := calculate_co2_change_label co2_change in
  let mass_flow := air_density outlet * (air_flow / 1000) in
  let energy_flux_inlet :=
    calculate_energy_flux (moist_air_enthalpy inlet) mass_flow in
  let energy_flux_outlet :=
    calculate_energy_flux (moist_air_enthalpy outlet) mass_flow in
  chamber <- chamber_gas_speed chamber_diameter air_flow ;;
  Ok {| altitude := altitude;
        air_flow := air_flow;
        resin_diameter := resin_diameter;
        resin_mass := resin_mass;
        resin_density := resin_density;
        chamber_diameter := chamber_diameter;
        pressure := pressure;
        resin := resin;
        inlet := inlet;
        outlet := outlet;
        co2_change := co2_change;
        co2_change_label := co2_change_label;
        mass_flow := mass_flow;
        energy_flux_inlet := energy_flux_inlet;
        energy_flux_outlet := energy_flux_outlet;
        chamber := chamber |}.

(** The lines of one data set in the message. *)
Definition station_lines (name : string) (s : station) (energy_flux : R)
  : message :=
  [Txt (name ++ " Data Set:"); Newline]
  ++ fmt "Dry Bulb Temperature: " (dry_bulb_temperature s) " °C"
  ++ fmt "Relative Humidity: " (relative_humidity s) " %"
  ++ fmt "CO2 Level: " (co2_level s) EmptyString
  ++ fmt "Wet Bulb Temperature: " (wet_bulb_temperature s) " °C"
  ++ fmt "Humidity Ratio: " (humidity_ratio s) " kg/kg"
  ++ fmt "Dew Point Temperature: " (dew_point_temperature s) " °C"
  ++ fmt "Relative Humidity (Calculated): " (calc_relative_humidity s) " %"
  ++ fmt "Partial Pressure: " (partial_pressure s) " Pa"
  ++ fmt "Moist Air Enthalpy: " (moist_air_enthalpy s) " J/kg"
  ++ fmt "Specific Volume: " (specific_volume s) " m³/kg"
  ++ fmt "Degree of Saturation: " (degree_of_saturation s) EmptyString
  ++ fmt "Dry Air Enthalpy: " (dry_air_enthalpy s) " J/kg"
  ++ fmt "Air Density: " (air_density s) " kg/m³"
  ++ fmt ("CO2 Flow (" ++ name ++ "): ") (co2_flow s) " mg/s"
  ++ fmt "Energy Flux: " energy_flux " J/s"
  ++ [Newline].

(** The lines under "Changes:": outlet minus inlet, field by field. *)
Definition change_lines (i o : station) : message :=
  [Txt "Changes:"; Newline]
  ++ fmt "Dry Bulb Temperature Change: "
       (dry_bulb_temperature o - dry_bulb_temperature i) " °C"
  ++ fmt "Relative Humidity Change: "
       (relative_humidity o - relative_humidity i) " %"
  ++ fmt "CO2 Level Change: " (co2_level o - co2_level i) EmptyString
  ++ fmt "Wet Bulb Temperature Change: "
       (wet_bulb_temperature o - wet_bulb_temperature i) " °C"
  ++ fmt "Humidity Ratio Change: " (humidity_ratio o - humidity_ratio i) " kg/kg"
  ++ fmt "Dew Point Temperature Change: "
       (dew_point_temperature o - dew_point_temperature i) " °C"
  ++ fmt "Relative Humidity (Calculated) Change: "
       (calc_relative_humidity o - calc_relative_humidity i) " %"
  ++ fmt "Partial Pressure Change: "
       (partial_pressure o - partial_pressure i) " Pa"
  ++ fmt "Moist Air Enthalpy Change: "
       (moist_air_enthalpy o - moist_air_enthalpy i) " J/kg"
  ++ fmt "Specific Volume Change: "
       (specific_volume o - specific_volume i) " m³/kg"
  ++ fmt "Degree of Saturation Change: "
       (degree_of_saturation o - degree_of_saturation i) EmptyString
  ++ fmt "Dry Air Enthalpy Change: "
       (dry_air_enthalpy o - dry_air_enthalpy i) " J/kg"
  ++ fmt "Air Density Change: " (air_density o - air_density i) " kg/m³".

(** [process_file], lines 381-450. *)
Definition output_message (r : report) : message :=
  fmt "Altitude: " (altitude r) " m"
  ++ fmt "Air Flow: " (air_flow r) " L/s"
  ++ fmt "Air Flow: " (air_m3_s (chamber r)) " m³/s"
  ++ [Newline]
  ++ fmt "Chamber Diameter: " (chamber_diameter r * 10) " mm"
  ++ fmt "Chamber Area: " (chamber_area (chamber r)) " cm²"
  ++ fmt "Chamber Area: " (c_area_m2 (chamber r)) " m²"
  ++ fmt "Gas Speed in Chamber: " (chamber_speed (chamber r)) " m/s"
  ++ fmt "Gas Speed in Chamber: " (chamber_speed (chamber r) * 100) " cm/s"
  ++ [Newline]
  ++ fmt "Resin Diameter: " (resin_diameter r) " mm"
  ++ fmt "Resin Mass: " (resin_mass r) " kg"
  ++ fmt "Resin Density: " (resin_density r) " kg/m³"
  ++ fmt "Single Sphere Surface Area: "
       (single_sphere_surface_area (resin r)) " m²"
  ++ fmt "Single Sphere Volume: " (single_sphere_volume (resin r)) " m³"
  ++ fmt "Total Resin Volume: " (total_resin_volume (resin r)) " m³"
  ++ fmt "Rough Number of Spheres: "
       (rough_number_of_spheres (resin r)) EmptyString
  ++ fmt "Total Surface Area: " (total_surface_area (resin r)) " m²"
  ++ fmt "Mass Flow: " (mass_flow r) " kg/s"
  ++ [Newline]
  ++ station_lines "Inlet" (inlet r) (energy_flux_inlet r)
  ++ station_lines "Outlet" (outlet r) (energy_flux_outlet r)
  ++ change_lines (inlet r) (outlet r)
  ++ [Txt (co2_change_label r); Txt ": "; Num (co2_change r); Txt " mg/s";
      Newline].

(** [process_file]: the command of the "Process File" button.  The bare
    [except: pass] is the second branch. *)
Definition process_file (fs : filesystem) (window : gui) : result gui :=
  let file_path := entry_file_path window in
  match process_file_try fs file_path with
  | Ok r =>
      Ok {| entry_file_path := entry_file_path window;
            text_output := output_message r |}
  | Raise _ => Ok window
  end.

End AshCalc.

(** ** Definitions used by the statements *)

(** What a cell adds to the list [read_excel_data] returns: [float(value)]
    when that returns, 0 when it raises. *)
Definition cell_number (float_of_str : string -> option R) (value : cell_value)
  : R :=
  match py_float float_of_str value with
  | Ok x => x
  | Raise _ => 0
  end.

(** The gas velocity in the words of the specification: the chamber
    diameter read as millimetres, the airflow as litres per second. *)
Definition spec_gas_velocity (chamber_diameter_mm airflow_lps : R) : R :=
  (airflow_lps / 1000) / (PI * (chamber_diameter_mm / 1000 / 2) ^ 2).

(** ** Workbooks and library answers to run the program on *)

Module Fixture.

(** A rig at sea level: 10 L/s through a 10 cm chamber, 1 kg of 1 mm beads
    of density 1000 kg/m3; inlet at rows 8 to 10 and outlet at rows 12 to
    14 of column 3. *)
Definition rig : worksheet := fun row column =>
  match column, row with
  | 3, 5 => CNumber 0
  | 3, 6 => CNumber 10
  | 3, 8 => CNumber 25
  | 3, 9 => CNumber 50
  | 3, 10 => CNumber 400
  | 3, 12 => CNumber 30
  | 3, 13 => CNumber 40
  | 3, 14 => CNumber 350
  | 7, 5 => CNumber 1
  | 7, 6 => CNumber 1
  | 7, 7 => CNumber 1000
  | 7, 9 => CNumber 10
  | _, _ => CNone
  end%Z.

(** The same rig with two inlet readings missing: the relative humidity is
    the text "n/a" and the CO2 cell is empty. *)
Definition gaps : worksheet := fun row column =>
  match column, row with
  | 3, 9 => CText "n/a"
  | 3, 10 => CNone
  | _, _ => rig row column
  end%Z.

(** The same rig with an inlet CO2 cell that holds the int 2^1024. *)
Definition huge : worksheet := fun row column =>
  match column, row with
  | 3, 10 => CInt (2 ^ 1024)
  | _, _ => rig row column
  end%Z.

(** An empty sheet. *)
Definition blank : worksheet := fun _ _ => CNone.

Definition fs : filesystem := fun path =>
  if String.eqb path "rig.xlsx" then Ok rig
  else if String.eqb path "gaps.xlsx" then Ok gaps
  else if String.eqb path "huge.xlsx" then Ok huge
  else if String.eqb path "blank.xlsx" then Ok blank
  else Raise FileNotFoundError.

(** [float] on the texts of these workbooks: "n/a" is the only one, and it
    does not read as a number. *)
Definition float_of_str : string -> option R := fun _ => None.

(** Stand-ins for the psychrolib calls of [process_file], with fixed
    answers near the ASHRAE reference state (25 C, 50 %, 101325 Pa).  No
    statement below depends on their values. *)
Definition GetTWetBulbFromRelHum (TDryBulb RelHum Pressure : R) : result R :=
  Ok (TDryBulb - 8).

Definition CalcPsychrometricsFromTWetBulb (TDryBulb TWetBulb Pressure : R)
  : result (R * R * R * R * R * R * R) :=
  Ok (0.00988, TWetBulb - 3, 0.5, 1584, 1006 * TDryBulb + 25000, 0.858, 0.49).

Definition GetDryAirEnthalpy (TDryBulb : R) : result R :=
  Ok (1006 * TDryBulb).

Definition GetMoistAirDensity (TDryBulb HumRatio Pressure : R) : result R :=
  Ok ((1 + HumRatio) / 0.858).

Definition window (name : string) : gui :=
  {| entry_file_path := name; text_output := [] |}.

(** [process_file_try] and [process_file] with the stand-ins above and
    psychrolib's standard atmosphere. *)
Definition run_try (name : string) : result report :=
  process_file_try float_of_str GetTWetBulbFromRelHum GetDryAirEnthalpy
    GetMoistAirDensity CalcPsychrometricsFromTWetBulb
    psychrolib_SI.GetStandardAtmPressure fs name.

Definition run (w : gui) : result gui :=
  process_file float_of_str GetTWetBulbFromRelHum GetDryAirEnthalpy
    GetMoistAirDensity CalcPsychrometricsFromTWetBulb
    psychrolib_SI.GetStandardAtmPressure fs w.

End Fixture.

(** ** Tactics *)

(** Closes [x <> 0] for the products and powers that occur as divisors. *)
Ltac nonzero :=
  pose proof PI_RGT_0;
  repeat first
    [ assumption
    | lra
    | apply pow_nonzero
    | apply Rinv_neq_0_compat
    | apply Rmult_integral_contrapositive_currified ].

(** ** Results, division and ranges *)

Lemma div_ok (x y : R) : y <> 0 -> div x y = Ok (x / y).
Proof.
  intros Hy. unfold div.
  destruct (Req_dec_T y 0) as [E | _]; [contradiction | reflexivity].
Qed.

Lemma div_zero (x y : R) : y = 0 -> div x y = Raise ZeroDivisionError.
Proof.
  intros Hy. unfold div.
  destruct (Req_dec_T y 0) as [_ | N]; [reflexivity | contradiction].
Qed.

Lemma div_cases (x y : R) :
  (y = 0 /\ div x y = Raise ZeroDivisionError)
  \/ (y <> 0 /\ div x y = Ok (x / y)).
Proof.
  destruct (Req_dec_T y 0) as [E | N].
  - left. split; [exact E | apply div_zero; exact E].
  - right. split; [exact N | apply div_ok; exact N].
Qed.


Lemma range_nth_error (n : Z) (i : nat) :
  (i < Z.to_nat n)%nat -> nth_error (range n) i = Some (Z.of_nat i).
Proof.
  intros Hi. unfold range.
  rewrite nth_error_map.
  rewrite (nth_error_nth' _ 0%nat) by (rewrite length_seq; exact Hi).
  rewrite seq_nth by exact Hi. reflexivity.
Qed.

Lemma range_nonneg (n : Z) : Forall (fun row => (0 <= row)%Z) (range n).
Proof.
  unfold range. apply Forall_forall. intros row Hin.
  apply in_map_iff in Hin. destruct Hin as [k [<- _]]. lia.
Qed.

(** ** Reading the workbook *)

Section Reading.

Variable float_of_str : string -> option R.

Lemma float_of_int_raises (z : Z) (e : exn) :
  float_of_int z = Raise e -> e = OverflowError.
Proof.
  unfold float_of_int.
  destruct (2 ^ 1024 - 2 ^ 970 <=? Z.abs z)%Z; intros H.
  - congruence.
  - discriminate H.
Qed.

(** [float] raises nothing but ValueError, TypeError and OverflowError. *)
Lemma py_float_raises (value : cell_value) (e : exn) :
  py_float float_of_str value = Raise e ->
  e = ValueError \/ e = TypeError \/ e = OverflowError.
Proof.
  destruct value as [ | x | z | b | s | d]; simpl; intros H.
  - right. left. congruence.
  - discriminate H.
  - right. right. exact (float_of_int_raises z e H).
  - discriminate H.
  - destruct (float_of_str s); [discriminate H | left; congruence].
  - right. left. congruence.
Qed.

(** OverflowError comes from an int cell that no double can hold. *)
Lemma py_float_overflow (value : cell_value) :
  py_float float_of_str value = Raise OverflowError ->
  exists z : Z, value = CInt z /\ (2 ^ 1024 - 2 ^ 970 <= Z.abs z)%Z.
Proof.
  destruct value as [ | x | z | b | s | d]; simpl; intros H;
    try discriminate H.
  - exists z. split; [reflexivity | ].
    unfold float_of_int in H.
    destruct (2 ^ 1024 - 2 ^ 970 <=? Z.abs z)%Z eqn:E; [ | discriminate H].
    apply Z.leb_le. exact E.
  - destruct (float_of_str s); discriminate H.
Qed.

Lemma cell_valid (sheet : worksheet) (row column : Z) :
  (1 <= row <= max_row)%Z -> (1 <= column)%Z ->
  cell sheet row column = Ok (sheet row column).
Proof.
  intros [Hr Hm] Hc. unfold cell.
  replace (row <? 1)%Z with false by (symmetry; apply Z.ltb_ge; exact Hr).
  replace (column <? 1)%Z with false by (symmetry; apply Z.ltb_ge; exact Hc).
  replace (max_row <? row)%Z with false by (symmetry; apply Z.ltb_ge; exact Hm).
  reflexivity.
Qed.

Lemma cell_invalid (sheet : worksheet) (row column : Z) :
  (row < 1)%Z \/ (column < 1)%Z \/ (max_row < row)%Z ->
  cell sheet row column = Raise ValueError.
Proof.
  intros H. unfold cell.
  destruct (row <? 1)%Z eqn:Er; [reflexivity | ].
  destruct (column <? 1)%Z eqn:Ec; [reflexivity | ].
  destruct (max_row <? row)%Z eqn:Em; [reflexivity | ].
  apply Z.ltb_ge in Er, Ec, Em. lia.
Qed.

(** A lookup returns the cell of the sheet or raises ValueError, and which
    of the two does not depend on the sheet. *)
Lemma cell_cases (sheet : worksheet) (row column : Z) :
  (forall sheet', cell sheet' row column = Ok (sheet' row column))
  \/ (forall sheet', cell sheet' row column = Raise ValueError).
Proof.
  destruct (Z_lt_dec row 1) as [Hr | Hr].
  { right. intros sheet'. apply cell_invalid. auto. }
  destruct (Z_lt_dec column 1) as [Hc | Hc].
  { right. intros sheet'. apply cell_invalid. auto. }
  destruct (Z_lt_dec max_row row) as [Hm | Hm].
  { right. intros sheet'. apply cell_invalid. auto. }
  left. intros sheet'. apply cell_valid; lia.
Qed.

(** One turn of the loop appends the cell's number, unless the cell is an
    int that no double can hold. *)
Lemma read_rows_step (sheet : worksheet) (col start_row row : Z)
  (rows : list Z) (data_list : list R) :
  (1 <= col)%Z -> (1 <= row + start_row <= max_row)%Z ->
  py_float float_of_str (sheet (row + start_row)%Z col) <> Raise OverflowError ->
  read_rows float_of_str sheet col start_row (row :: rows) data_list
  = read_rows float_of_str sheet col start_row rows
      (data_list ++ [cell_number float_of_str (sheet (row + start_row)%Z col)]).
Proof.
  intros Hc Hr Hover. simpl.
  rewrite cell_valid by assumption. simpl.
  unfold cell_number.
  destruct (py_float float_of_str (sheet (row + start_row)%Z col)) as [x | e] eqn:E.
  - reflexivity.
  - destruct (py_float_raises _ _ E) as [-> | [-> | ->]];
      [reflexivity | reflexivity | contradiction].
Qed.


Lemma read_rows_spec (sheet : worksheet) (col start_row : Z) (rows : list Z) :
  (1 <= col)%Z ->
  Forall (fun row =>
            (1 <= row + start_row <= max_row)%Z
            /\ py_float float_of_str (sheet (row + start_row)%Z col)
               <> Raise OverflowError) rows ->
  forall data_list,
    read_rows float_of_str sheet col start_row rows data_list
    = Ok (data_list
          ++ map (fun row => cell_number float_of_str (sheet (row + start_row)%Z col))
               rows).
Proof.
  intros Hc Hrows.
  induction Hrows as [ | row rows [Hrow Hover] _ IH]; intros data_list.
  - simpl. rewrite app_nil_r. reflexivity.
  - rewrite read_rows_step by assumption.
    rewrite IH. rewrite <- app_assoc. reflexivity.
Qed.

(** What the loop returns when it returns. *)
Lemma read_rows_ok_inv (sheet : worksheet) (col start_row : Z)
  (rows : list Z) :
  forall data_list result_list,
    read_rows float_of_str sheet col start_row rows data_list = Ok result_list ->
    result_list
    = (data_list
       ++ map (fun row => cell_number float_of_str (sheet (row + start_row)%Z col))
            rows)%list.
Proof.
  induction rows as [ | row rows IH]; intros data_list result_list H.
  - simpl in H. injection H as <-. simpl. rewrite app_nil_r. reflexivity.
  - simpl in H.
    destruct (cell_cases sheet (row + start_row) col) as [Hcell | Hcell];
      rewrite Hcell in H; simpl in H; [ | discriminate H].
    simpl. unfold cell_number at 1.
    destruct (py_float float_of_str (sheet (row + start_row)%Z col))
      as [x | e] eqn:E.
    + rewrite (IH _ _ H). rewrite <- app_assoc. reflexivity.
    + destruct (py_float_raises _ _ E) as [-> | [-> | ->]];
        [ | | discriminate H];
        rewrite (IH _ _ H); rewrite <- app_assoc; reflexivity.
Qed.

(** The loop over two runs of rows is the loop over the first, then the
    loop over the second, exceptions included. *)
Lemma read_rows_app (sheet : worksheet) (col start_row : Z)
  (rows rows' : list Z) :
  forall data_list,
    read_rows float_of_str sheet col start_row (rows ++ rows') data_list
    = (data <- read_rows float_of_str sheet col start_row rows data_list ;;
       read_rows float_of_str sheet col start_row rows' data).
Proof.
  induction rows as [ | row rows IH]; intros data_list.
  - reflexivity.
  - simpl.
    destruct (cell sheet (row + start_row) col) as [value | e];
      [simpl | reflexivity].
    destruct (py_float float_of_str value) as [x | [ | | | | | ]];
      try reflexivity; apply IH.
Qed.

(** The list the loop starts from is a prefix of its result. *)
Lemma read_rows_from (sheet : worksheet) (col start_row : Z) (rows : list Z) :
  forall data_list,
    read_rows float_of_str sheet col start_row rows data_list
    = (data <- read_rows float_of_str sheet col start_row rows [] ;;
       Ok (data_list ++ data)%list).
Proof.
  induction rows as [ | row rows IH]; intros data_list.
  - simpl. rewrite app_nil_r. reflexivity.
  - simpl.
    destruct (cell sheet (row + start_row) col) as [value | e];
      [simpl | reflexivity].
    assert (Hnext : forall x : R,
              read_rows float_of_str sheet col start_row rows (data_list ++ [x])
              = (data <- read_rows float_of_str sheet col start_row rows [x] ;;
                 Ok (data_list ++ data)%list)).
    { intros x. rewrite (IH (data_list ++ [x])%list), (IH [x]).
      destruct (read_rows float_of_str sheet col start_row rows [])
        as [data | e]; [simpl | reflexivity].
      rewrite <- app_assoc. reflexivity. }
    destruct (py_float float_of_str value) as [x | [ | | | | | ]];
      try reflexivity; apply Hnext.
Qed.

(** Rows counted from [n] on are rows counted from 0 with the first row
    moved by [n]. *)
Lemma read_rows_shift (sheet : worksheet) (col start_row n : Z)
  (rows : list Z) :
  forall data_list,
    read_rows float_of_str sheet col start_row
      (map (fun row => (n + row)%Z) rows) data_list
    = read_rows float_of_str sheet col (start_row + n) rows data_list.
Proof.
  induction rows as [ | row rows IH]; intros data_list.
  - reflexivity.
  - simpl.
    replace (n + row + start_row)%Z with (row + (start_row + n))%Z by lia.
    destruct (cell sheet (row + (start_row + n)) col) as [value | e];
      [simpl | reflexivity].
    destruct (py_float float_of_str value) as [x | [ | | | | | ]];
      try reflexivity; apply IH.
Qed.

(** The loop reads nothing but the cells of its rows. *)
Lemma read_rows_ext (sheet sheet' : worksheet) (col start_row : Z)
  (rows : list Z) :
  (forall row, In row rows ->
     sheet (row + start_row)%Z col = sheet' (row + start_row)%Z col) ->
  forall data_list,
    read_rows float_of_str sheet col start_row rows data_list
    = read_rows float_of_str sheet' col start_row rows data_list.
Proof.
  induction rows as [ | row rows IH]; intros Hsame data_list.
  - reflexivity.
  - simpl.
    destruct (cell_cases sheet (row + start_row) col) as [Hcell | Hcell];
      rewrite (Hcell sheet), (Hcell sheet'); [simpl | reflexivity].
    rewrite <- (Hsame row) by (left; reflexivity).
    assert (IH' := IH (fun r Hr => Hsame r (or_intror Hr))).
    destruct (py_float float_of_str (sheet (row + start_row)%Z col))
      as [x | [ | | | | | ]]; try reflexivity; apply IH'.
Qed.

Lemma read_excel_data_spec (fs : filesystem) (file_path : string)
  (sheet : worksheet) (col start_row num_of_rows : Z) :
  fs file_path = Ok sheet -> (1 <= col)%Z -> (1 <= start_row)%Z ->
  (start_row + num_of_rows <= max_row + 1)%Z ->
  (forall row : Z,
     (start_row <= row < start_row + num_of_rows)%Z ->
     py_float float_of_str (sheet row col) <> Raise OverflowError) ->
  read_excel_data float_of_str fs file_path col start_row num_of_rows
  = Ok (map (fun row => cell_number float_of_str (sheet (row + start_row)%Z col))
          (range num_of_rows)).
Proof.
  intros Hfs Hc Hs Hlast Hover. unfold read_excel_data. rewrite Hfs. simpl.
  rewrite read_rows_spec.
  - reflexivity.
  - exact Hc.
  - apply Forall_forall. intros row Hin.
    unfold range in Hin. apply in_map_iff in Hin.
    destruct Hin as [k [<- Hk]]. apply in_seq in Hk.
    split; [lia | apply Hover; lia].
Qed.




(** What [read_excel_data] returns when it returns. *)
Lemma read_excel_data_ok_inv (fs : filesystem) (file_path : string)
  (col start_row num_of_rows : Z) (data_list : list R) :
  read_excel_data float_of_str fs file_path col start_row num_of_rows
  = Ok data_list ->
  exists sheet : worksheet,
    fs file_path = Ok sheet
    /\ data_list
       = map (fun row => cell_number float_of_str (sheet (row + start_row)%Z col))
           (range num_of_rows).
Proof.
  unfold read_excel_data. intros H.
  destruct (fs file_path) as [sheet | e]; [ | discriminate H].
  cbn [bind] in H. exists sheet. split; [reflexivity | ].
  exact (read_rows_ok_inv _ _ _ _ _ _ H).
Qed.

End Reading.

Local Open Scope string_scope.


(** No cell of column 3, rows 8 to 10, of "gaps.xlsx" is an int that no
    double can hold. *)
Lemma gaps_inlet_no_overflow (row : Z) :
  (8 <= row < 8 + 3)%Z ->
  py_float Fixture.float_of_str (Fixture.gaps row 3%Z) <> Raise OverflowError.
Proof.
  intros Hrow.
  assert (Hcases : row = 8%Z \/ row = 9%Z \/ row = 10%Z) by lia.
  destruct Hcases as [-> | [-> | ->]]; discriminate.
Qed.




(** C1, as the program has it.  A cell on which [float] raises ValueError
    or TypeError does not make [read_excel_data] fail: when the rows read
    are rows of the sheet and none of them holds an int that no double can
    hold, the call returns, and the entry of that row in the returned list
    is 0 (the docstring: "Non-numeric values are replaced with 0"). *)
Theorem read_excel_data_zero_for_rejected_cell
  (float_of_str : string -> option R) (fs : filesystem) (file_path : string)
  (sheet : worksheet) (col start_row num_of_rows : Z) (i : nat) (e : exn) :
  fs file_path = Ok sheet ->
  (1 <= col)%Z -> (1 <= start_row)%Z -> (Z.of_nat i < num_of_rows)%Z ->
  (start_row + num_of_rows <= max_row + 1)%Z ->
  (forall row : Z,
     (start_row <= row < start_row + num_of_rows)%Z ->
     py_float float_of_str (sheet row col) <> Raise OverflowError) ->
  py_float float_of_str (sheet (Z.of_nat i + start_row)%Z col) = Raise e ->
  (e = ValueError \/ e = TypeError)
  /\ exists data_list,
       read_excel_data float_of_str fs file_path col start_row num_of_rows
       = Ok data_list
       /\ nth_error data_list i = Some 0.
Proof.
  intros Hfs Hc Hs Hi Hlast Hover He.
  split.
  - destruct (py_float_raises _ _ _ He) as [-> | [-> | ->]]; auto.
    exfalso. apply (Hover (Z.of_nat i + start_row)%Z); [lia | exact He].
  - eexists. split.
    + apply read_excel_data_spec; eassumption.
    + rewrite nth_error_map, range_nth_error by lia.
      simpl. unfold cell_number. rewrite He. reflexivity.
Qed.

Lemma read_excel_data_zero_for_rejected_cell_witness :
  (Fixture.fs "gaps.xlsx" = Ok Fixture.gaps
   /\ (1 <= 3)%Z /\ (1 <= 8)%Z /\ (Z.of_nat 1 < 3)%Z
   /\ (8 + 3 <= max_row + 1)%Z
   /\ (forall row : Z,
         (8 <= row < 8 + 3)%Z ->
         py_float Fixture.float_of_str (Fixture.gaps row 3%Z)
         <> Raise OverflowError)
   /\ py_float Fixture.float_of_str (Fixture.gaps (Z.of_nat 1 + 8)%Z 3%Z)
      = Raise ValueError)
  /\ (ValueError = ValueError \/ ValueError = TypeError)
  /\ exists data_list,
       read_excel_data Fixture.float_of_str Fixture.fs "gaps.xlsx" 3 8 3
       = Ok data_list
       /\ nth_error data_list 1 = Some 0.
Proof.
  split.
  - refine (conj _ (conj _ (conj _ (conj _ (conj _ (conj _ _))))));
      [reflexivity | lia | lia | lia | unfold max_row; lia
      | exact gaps_inlet_no_overflow | reflexivity].
  - apply (read_excel_data_zero_for_rejected_cell
             Fixture.float_of_str Fixture.fs "gaps.xlsx" Fixture.gaps 3 8 3 1
             ValueError);
      [reflexivity | lia | lia | lia | unfold max_row; lia
      | exact gaps_inlet_no_overflow | reflexivity].
Defined.

(** C1 fails on the program: the inlet rows of the workbook "gaps.xlsx"
    hold 25, the text "n/a" and an empty cell, and [read_excel_data]
    returns the list 25, 0, 0 instead of raising. *)
Lemma read_excel_data_coerces_to_zero :
  Fixture.gaps 9%Z 3%Z = CText "n/a"
  /\ Fixture.gaps 10%Z 3%Z = CNone
  /\ read_excel_data Fixture.float_of_str Fixture.fs "gaps.xlsx" 3 8 3
     = Ok [25; 0; 0].
Proof.
  split; [reflexivity | split; [reflexivity | ]].
  rewrite (read_excel_data_spec _ _ _ Fixture.gaps);
    [reflexivity | reflexivity | lia | lia | unfold max_row; lia
    | exact gaps_inlet_no_overflow].
Qed.

(** ** The CO2 balance *)

Lemma co2_label_release (c : R) :
  0 < c -> calculate_co2_change_label c = "CO2 Release".
Proof.
  intros H. unfold calculate_co2_change_label.
  destruct (Rlt_dec 0 c) as [_ | N]; [reflexivity | contradiction].
Qed.

Lemma co2_label_capture (c : R) :
  c < 0 -> calculate_co2_change_label c = "CO2 Capture".
Proof.
  intros H. unfold calculate_co2_change_label.
  destruct (Rlt_dec 0 c) as [P | _]; [lra | ].
  destruct (Rlt_dec c 0) as [_ | N]; [reflexivity | contradiction].
Qed.

Lemma co2_label_no_change (c : R) :
  c = 0 -> calculate_co2_change_label c = "No Change in CO2".
Proof.
  intros ->. unfold calculate_co2_change_label.
  destruct (Rlt_dec 0 0) as [P | _]; [lra | ].
  destruct (Rlt_dec 0 0) as [P | _]; [lra | reflexivity].
Qed.

(** C5. The CO2 change is the outlet flow minus the inlet flow, and its
    label follows its sign: "CO2 Release" exactly when the change is
    positive, "CO2 Capture" exactly when it is negative, "No Change in CO2"
    exactly when it is zero. *)
Theorem co2_change_label_matches_sign (co2_flow_inlet co2_flow_outlet : R) :
  calculate_co2_change co2_flow_inlet co2_flow_outlet
  = co2_flow_outlet - co2_flow_inlet
  /\ (0 < calculate_co2_change co2_flow_inlet co2_flow_outlet
      <-> calculate_co2_change_label
            (calculate_co2_change co2_flow_inlet co2_flow_outlet)
          = "CO2 Release")
  /\ (calculate_co2_change co2_flow_inlet co2_flow_outlet < 0
      <-> calculate_co2_change_label
            (calculate_co2_change co2_flow_inlet co2_flow_outlet)
          = "CO2 Capture")
  /\ (calculate_co2_change co2_flow_inlet co2_flow_outlet = 0
      <-> calculate_co2_change_label
            (calculate_co2_change co2_flow_inlet co2_flow_outlet)
          = "No Change in CO2").
Proof.
  split; [reflexivity | ].
  set (c := calculate_co2_change co2_flow_inlet co2_flow_outlet).
  destruct (Rtotal_order c 0) as [Hneg | [Hzero | Hpos]].
  - rewrite (co2_label_capture c Hneg).
    repeat split; intros H; try discriminate H; try lra; reflexivity.
  - rewrite (co2_label_no_change c Hzero).
    repeat split; intros H; try discriminate H; try lra; reflexivity.
  - rewrite (co2_label_release c Hpos).
    repeat split; intros H; try discriminate H; try lra; reflexivity.
Qed.

(** ** The resin bed *)

Lemma resin_bed_geometry_ok (resin_diameter resin_mass resin_density : R) :
  resin_diameter <> 0 -> resin_mass <> 0 -> resin_density <> 0 ->
  resin_bed_geometry resin_diameter resin_mass resin_density
  = Ok {| resin_diameter_m := resin_diameter / 1000;
          resin_radius := resin_diameter / 1000 / 2;
          single_sphere_surface_area := PI * (resin_diameter / 1000) ^ 2;
          single_sphere_volume := (4 / 3) * PI * (resin_diameter / 1000 / 2) ^ 3;
          total_resin_volume := 1 / (resin_density / resin_mass);
          rough_number_of_spheres :=
            1 / (resin_density / resin_mass)
            / ((4 / 3) * PI * (resin_diameter / 1000 / 2) ^ 3);
          total_surface_area :=
            1 / (resin_density / resin_mass)
            / ((4 / 3) * PI * (resin_diameter / 1000 / 2) ^ 3)
            * (PI * (resin_diameter / 1000) ^ 2) |}.
Proof.
  intros Hd Hm Hrho. unfold resin_bed_geometry.
  rewrite (div_ok resin_density resin_mass) by exact Hm. cbn [bind].
  rewrite (div_ok 1) by (unfold Rdiv; nonzero). cbn [bind].
  rewrite div_ok by nonzero. cbn [bind].
  reflexivity.
Qed.

Lemma resin_bed_geometry_zero (resin_diameter resin_mass resin_density : R) :
  resin_diameter = 0 \/ resin_mass = 0 \/ resin_density = 0 ->
  resin_bed_geometry resin_diameter resin_mass resin_density
  = Raise ZeroDivisionError.
Proof.
  intros H. unfold resin_bed_geometry.
  destruct (div_cases resin_density resin_mass) as [[Hm ->] | [Hm ->]];
    [reflexivity | simpl].
  destruct (div_cases 1 (resin_density / resin_mass)) as [[Hq ->] | [Hq ->]];
    [reflexivity | simpl].
  rewrite div_zero; [reflexivity | ].
  destruct H as [Hd | [Hm' | Hrho]].
  - subst resin_diameter. lra.
  - contradiction.
  - exfalso. apply Hq. subst resin_density. lra.
Qed.

(** C6. For beads of diameter 1 mm, 1 kg of resin and a density of
    1000 kg/m3 the geometry block returns: a bead volume of (4/3) pi r^3
    with r half of the diameter divided by 1000; a total resin volume of
    mass/density = 0.001 m3; and a bead count of
    0.001 / ((4/3) pi 0.0005^3).  (Numbers are reals here, so the two sides
    are equal, not only close.) *)
Theorem resin_bed_geometry_unit_bead :
  exists g : resin_bed,
    resin_bed_geometry 1 1 1000 = Ok g
    /\ single_sphere_volume g = (4 / 3) * PI * (1 / 1000 / 2) ^ 3
    /\ total_resin_volume g = 1 / 1000
    /\ total_resin_volume g = 0.001
    /\ rough_number_of_spheres g = 0.001 / ((4 / 3) * PI * 0.0005 ^ 3).
Proof.
  eexists. split.
  - apply resin_bed_geometry_ok; lra.
  - simpl. split; [reflexivity | ].
    split; [lra | ]. split; [lra | ].
    replace (1 / (1000 / 1)) with 0.001 by lra.
    replace (1 / 1000 / 2) with 0.0005 by lra.
    reflexivity.
Qed.

(** C9, as the program has it.  The geometry block checks nothing.  When
    the diameter, the mass or the density is zero a division raises
    ZeroDivisionError; otherwise, whatever the signs, it returns numbers:
    the total volume is mass/density and the bead count is that volume
    divided by the volume of one bead. *)
Theorem resin_bed_geometry_checks_nothing
  (resin_diameter resin_mass resin_density : R) :
  ((resin_diameter = 0 \/ resin_mass = 0 \/ resin_density = 0)
   /\ resin_bed_geometry resin_diameter resin_mass resin_density
      = Raise ZeroDivisionError)
  \/ ((resin_diameter <> 0 /\ resin_mass <> 0 /\ resin_density <> 0)
      /\ exists g : resin_bed,
           resin_bed_geometry resin_diameter resin_mass resin_density = Ok g
           /\ total_resin_volume g = resin_mass / resin_density
           /\ single_sphere_volume g
              = (4 / 3) * PI * (resin_diameter / 1000 / 2) ^ 3
           /\ rough_number_of_spheres g
              = total_resin_volume g / single_sphere_volume g).
Proof.
  destruct (Req_dec_T resin_diameter 0) as [Hd | Hd].
  { left. split; [auto | apply resin_bed_geometry_zero; auto]. }
  destruct (Req_dec_T resin_mass 0) as [Hm | Hm].
  { left. split; [auto | apply resin_bed_geometry_zero; auto]. }
  destruct (Req_dec_T resin_density 0) as [Hrho | Hrho].
  { left. split; [auto | apply resin_bed_geometry_zero; auto]. }
  right. split; [auto | ].
  eexists. split; [apply resin_bed_geometry_ok; assumption | ].
  simpl. split; [field; auto | split; reflexivity].
Qed.

(** C9 fails on the program: a density of -1000 kg/m3 is accepted, and the
    block returns a total resin volume of -0.001 m3. *)
Lemma resin_bed_geometry_accepts_negative_density :
  -1000 <= 0
  /\ exists g : resin_bed,
       resin_bed_geometry 1 1 (-1000) = Ok g
       /\ total_resin_volume g = -0.001.
Proof.
  split; [lra | ].
  eexists. split.
  - apply resin_bed_geometry_ok; lra.
  - simpl. lra.
Qed.

(** ** The chamber *)

Lemma chamber_gas_speed_ok (chamber_diameter air_flow : R) :
  chamber_diameter <> 0 ->
  chamber_gas_speed chamber_diameter air_flow
  = Ok {| c_radius := chamber_diameter / 2;
          chamber_area := PI * (chamber_diameter / 2) ^ 2;
          c_area_m2 := PI * (chamber_diameter / 2) ^ 2 / 10000;
          air_m3_s := air_flow / 1000;
          chamber_speed :=
            air_flow / 1000 / (PI * (chamber_diameter / 2) ^ 2 / 10000) |}.
Proof.
  intros Hd. unfold chamber_gas_speed.
  rewrite div_ok by (unfold Rdiv; nonzero).
  reflexivity.
Qed.

Lemma chamber_gas_speed_zero (air_flow : R) :
  chamber_gas_speed 0 air_flow = Raise ZeroDivisionError.
Proof.
  unfold chamber_gas_speed.
  rewrite div_zero; [reflexivity | ].
  unfold Rdiv. rewrite Rmult_0_l. simpl. lra.
Qed.

(** The cross-section the program divides by is that of a diameter given
    in centimetres. *)
Lemma chamber_area_in_m2 (chamber_diameter : R) :
  PI * (chamber_diameter / 2) ^ 2 / 10000
  = PI * (chamber_diameter / 100 / 2) ^ 2.
Proof. field. Qed.

(** C7, as the program has it.  The chamber diameter is taken in
    centimetres (the message prints ten times the value as millimetres and
    the area as cm2).  For a diameter [d <> 0] and an airflow [q] in L/s the
    gas speed is [q / 1000] divided by the cross-section [pi (d/100/2)^2] in
    m2, which is one hundredth of the velocity that the reading of [d] as
    millimetres gives. *)
Theorem chamber_gas_speed_in_centimetres (chamber_diameter air_flow : R) :
  chamber_diameter <> 0 ->
  exists c : chamber_flow,
    chamber_gas_speed chamber_diameter air_flow = Ok c
    /\ air_m3_s c = air_flow / 1000
    /\ c_area_m2 c = PI * (chamber_diameter / 100 / 2) ^ 2
    /\ chamber_speed c = air_m3_s c / c_area_m2 c
    /\ chamber_speed c * 100 = spec_gas_velocity chamber_diameter air_flow.
Proof.
  intros Hd. eexists. split; [apply chamber_gas_speed_ok; exact Hd | ].
  cbn [air_m3_s c_area_m2 chamber_speed].
  split; [reflexivity | ].
  split; [apply chamber_area_in_m2 | ].
  split; [reflexivity | ].
  unfold spec_gas_velocity. pose proof PI_RGT_0. field.
  split; [exact Hd | lra].
Qed.

Lemma chamber_gas_speed_in_centimetres_witness :
  10 <> 0
  /\ exists c : chamber_flow,
       chamber_gas_speed 10 1 = Ok c
       /\ air_m3_s c = 1 / 1000
       /\ c_area_m2 c = PI * (10 / 100 / 2) ^ 2
       /\ chamber_speed c = air_m3_s c / c_area_m2 c
       /\ chamber_speed c * 100 = spec_gas_velocity 10 1.
Proof.
  split.
  - lra.
  - apply (chamber_gas_speed_in_centimetres 10 1). lra.
Defined.

(** C7 fails on the program: for a chamber diameter of 10 and an airflow of
    1 L/s the program's gas speed is 2/(5 pi) m/s, while the diameter read
    as millimetres gives 40/pi m/s. *)
Lemma chamber_gas_speed_is_not_spec_velocity :
  exists c : chamber_flow,
    chamber_gas_speed 10 1 = Ok c
    /\ chamber_speed c = 2 / (5 * PI)
    /\ spec_gas_velocity 10 1 = 40 / PI
    /\ chamber_speed c < spec_gas_velocity 10 1.
Proof.
  pose proof PI_RGT_0 as Hpi.
  eexists. split; [apply chamber_gas_speed_ok; lra | ].
  cbn [chamber_speed].
  assert (Hc : 1 / 1000 / (PI * (10 / 2) ^ 2 / 10000) = 2 / (5 * PI))
    by (field; lra).
  assert (Hs : spec_gas_velocity 10 1 = 40 / PI)
    by (unfold spec_gas_velocity; field; lra).
  rewrite Hc, Hs.
  split; [reflexivity | split; [reflexivity | ]].
  assert (Hinv : 0 < / PI) by (apply Rinv_0_lt_compat; exact Hpi).
  replace (2 / (5 * PI)) with (2 / 5 * / PI) by (field; lra).
  unfold Rdiv at 2. nra.
Qed.

(** ** The standard atmosphere *)

(** The wrapper adds no check of its own to the library call. *)
Lemma calculate_pressure_from_altitude_is_library_call
  (GetStandardAtmPressure : R -> result R) (altitude : R) :
  calculate_pressure_from_altitude GetStandardAtmPressure altitude
  = GetStandardAtmPressure altitude.
Proof. reflexivity. Qed.

Lemma standard_atmosphere_base_positive (altitude : R) :
  altitude < 44330 -> 0 < 1 - 2.25577e-05 * altitude.
Proof. intros H. lra. Qed.

Lemma GetStandardAtmPressure_below_44330 (altitude : R) :
  altitude < 44330 ->
  psychrolib_SI.GetStandardAtmPressure altitude
  = Ok (101325 * Rpower (1 - 2.25577e-05 * altitude) 5.2559).
Proof.
  intros H. pose proof (standard_atmosphere_base_positive altitude H) as Hb.
  unfold psychrolib_SI.GetStandardAtmPressure. cbv zeta.
  destruct (Rlt_dec (1 - 2.25577e-05 * altitude) 0) as [Hneg | _]; [lra | ].
  destruct (Req_dec_T (1 - 2.25577e-05 * altitude) 0) as [Hz | _]; [lra | ].
  reflexivity.
Qed.

Lemma sea_level_pressure :
  calculate_pressure_from_altitude psychrolib_SI.GetStandardAtmPressure 0
  = Ok 101325.
Proof.
  unfold calculate_pressure_from_altitude.
  rewrite GetStandardAtmPressure_below_44330 by lra.
  replace (1 - 2.25577e-05 * 0) with 1 by lra.
  unfold Rpower. rewrite ln_1, Rmult_0_r, exp_0.
  f_equal. lra.
Qed.

(** C3, as the program has it.  [calculate_pressure_from_altitude] checks no
    range: with psychrolib's SI relation it returns the positive pressure
    [101325 (1 - 2.25577e-05 h)^5.2559] for every altitude [h] below
    44330 m, inside [-5000, 11000] or not. *)
Theorem calculate_pressure_from_altitude_unchecked (altitude : R) :
  altitude < 44330 ->
  calculate_pressure_from_altitude psychrolib_SI.GetStandardAtmPressure altitude
  = Ok (101325 * Rpower (1 - 2.25577e-05 * altitude) 5.2559)
  /\ 0 < 101325 * Rpower (1 - 2.25577e-05 * altitude) 5.2559.
Proof.
  intros H. split.
  - unfold calculate_pressure_from_altitude.
    apply GetStandardAtmPressure_below_44330. exact H.
  - apply Rmult_lt_0_compat; [lra | ].
    unfold Rpower. apply exp_pos.
Qed.

Lemma calculate_pressure_from_altitude_unchecked_witness :
  -5000 < 44330
  /\ calculate_pressure_from_altitude psychrolib_SI.GetStandardAtmPressure (-5000)
     = Ok (101325 * Rpower (1 - 2.25577e-05 * -5000) 5.2559)
  /\ 0 < 101325 * Rpower (1 - 2.25577e-05 * -5000) 5.2559.
Proof.
  split.
  - lra.
  - apply (calculate_pressure_from_altitude_unchecked (-5000)). lra.
Defined.

(** C3 fails on the program: 20000 m is above 11000 m and -6000 m is below
    -5000 m, and for both the call returns a pressure. *)
Lemma calculate_pressure_from_altitude_out_of_range :
  11000 < 20000
  /\ calculate_pressure_from_altitude psychrolib_SI.GetStandardAtmPressure 20000
     = Ok (101325 * Rpower (1 - 2.25577e-05 * 20000) 5.2559)
  /\ -6000 < -5000
  /\ calculate_pressure_from_altitude psychrolib_SI.GetStandardAtmPressure (-6000)
     = Ok (101325 * Rpower (1 - 2.25577e-05 * -6000) 5.2559).
Proof.
  split; [lra | split; [ | split; [lra | ]]].
  - unfold calculate_pressure_from_altitude.
    apply GetStandardAtmPressure_below_44330. lra.
  - unfold calculate_pressure_from_altitude.
    apply GetStandardAtmPressure_below_44330. lra.
Qed.

(** ** The wet-bulb wrapper *)

(** At a relative humidity of 100 % the wrapper asks the library for the
    wet-bulb temperature at the fraction 1; it has no branch of its own for
    saturated air. *)
Lemma calculate_wet_bulb_temperature_at_saturation
  (GetTWetBulbFromRelHum : R -> R -> R -> result R)
  (dry_bulb_temperature pressure : R) :
  calculate_wet_bulb_temperature GetTWetBulbFromRelHum
    dry_bulb_temperature 100 pressure
  = GetTWetBulbFromRelHum dry_bulb_temperature 1 pressure.
Proof.
  unfold calculate_wet_bulb_temperature. cbv zeta.
  replace (100 / 100) with 1 by lra. reflexivity.
Qed.

(** ** The six cells of the rig, cell by cell *)

Lemma get_altitude_and_airflow_loaded
  (float_of_str : string -> option R) (fs : filesystem) (file_path : string)
  (sheet : worksheet) :
  fs file_path = Ok sheet ->
  get_altitude_and_airflow float_of_str fs file_path
  = (altitude <- py_float float_of_str (sheet 5 3)%Z ;;
     air_flow <- py_float float_of_str (sheet 6 3)%Z ;;
     resin_diameter <- py_float float_of_str (sheet 5 7)%Z ;;
     resin_mass <- py_float float_of_str (sheet 6 7)%Z ;;
     resin_density <- py_float float_of_str (sheet 7 7)%Z ;;
     chamber_diameter <- py_float float_of_str (sheet 9 7)%Z ;;
     Ok (altitude, air_flow, resin_diameter, resin_mass, resin_density,
         chamber_diameter)).
Proof.
  intros Hfs. unfold get_altitude_and_airflow. rewrite Hfs. reflexivity.
Qed.

Lemma get_altitude_and_airflow_ok_inv
  (float_of_str : string -> option R) (fs : filesystem) (file_path : string)
  (sheet : worksheet) (a q d m rho cd : R) :
  fs file_path = Ok sheet ->
  get_altitude_and_airflow float_of_str fs file_path = Ok (a, q, d, m, rho, cd) ->
  py_float float_of_str (sheet 5 3)%Z = Ok a
  /\ py_float float_of_str (sheet 6 3)%Z = Ok q
  /\ py_float float_of_str (sheet 5 7)%Z = Ok d
  /\ py_float float_of_str (sheet 6 7)%Z = Ok m
  /\ py_float float_of_str (sheet 7 7)%Z = Ok rho
  /\ py_float float_of_str (sheet 9 7)%Z = Ok cd.
Proof.
  intros Hfs.
  rewrite (get_altitude_and_airflow_loaded _ _ _ sheet Hfs). intros H.
  destruct (py_float float_of_str (sheet 5 3)%Z); [ | discriminate H].
  destruct (py_float float_of_str (sheet 6 3)%Z); [ | discriminate H].
  destruct (py_float float_of_str (sheet 5 7)%Z); [ | discriminate H].
  destruct (py_float float_of_str (sheet 6 7)%Z); [ | discriminate H].
  destruct (py_float float_of_str (sheet 7 7)%Z); [ | discriminate H].
  destruct (py_float float_of_str (sheet 9 7)%Z); [ | discriminate H].
  cbn [bind] in H. injection H as -> -> -> -> -> ->.
  repeat split; reflexivity.
Qed.

Lemma get_altitude_and_airflow_ok
  (float_of_str : string -> option R) (fs : filesystem) (file_path : string)
  (sheet : worksheet) (a q d m rho cd : R) :
  fs file_path = Ok sheet ->
  py_float float_of_str (sheet 5 3)%Z = Ok a ->
  py_float float_of_str (sheet 6 3)%Z = Ok q ->
  py_float float_of_str (sheet 5 7)%Z = Ok d ->
  py_float float_of_str (sheet 6 7)%Z = Ok m ->
  py_float float_of_str (sheet 7 7)%Z = Ok rho ->
  py_float float_of_str (sheet 9 7)%Z = Ok cd ->
  get_altitude_and_airflow float_of_str fs file_path = Ok (a, q, d, m, rho, cd).
Proof.
  intros Hfs H1 H2 H3 H4 H5 H6.
  rewrite (get_altitude_and_airflow_loaded _ _ _ sheet Hfs).
  rewrite H1, H2, H3, H4, H5, H6. reflexivity.
Qed.

Lemma get_altitude_and_airflow_sheet
  (float_of_str : string -> option R) (fs : filesystem) (file_path : string)
  (t : R * R * R * R * R * R) :
  get_altitude_and_airflow float_of_str fs file_path = Ok t ->
  exists sheet : worksheet, fs file_path = Ok sheet.
Proof.
  unfold get_altitude_and_airflow. intros H.
  destruct (fs file_path) as [sheet | e]; [ | discriminate H].
  exists sheet. reflexivity.
Qed.

(** ** The report *)

Section Report.

Variable float_of_str : string -> option R.
Variable GetTWetBulbFromRelHum : R -> R -> R -> result R.
Variable GetDryAirEnthalpy : R -> result R.
Variable GetMoistAirDensity : R -> R -> R -> result R.
Variable CalcPsychrometricsFromTWetBulb :
  R -> R -> R -> result (R * R * R * R * R * R * R).
Variable GetStandardAtmPressure : R -> result R.

(** [f'] is [f] of the program applied to the functions above. *)
Local Abbreviation station_data' :=
  (station_data float_of_str GetTWetBulbFromRelHum GetDryAirEnthalpy
     GetMoistAirDensity CalcPsychrometricsFromTWetBulb).
Local Abbreviation process_file_try' :=
  (process_file_try float_of_str GetTWetBulbFromRelHum GetDryAirEnthalpy
     GetMoistAirDensity CalcPsychrometricsFromTWetBulb GetStandardAtmPressure).
Local Abbreviation process_file' :=
  (process_file float_of_str GetTWetBulbFromRelHum GetDryAirEnthalpy
     GetMoistAirDensity CalcPsychrometricsFromTWetBulb GetStandardAtmPressure).

(** Where the fields of a data set come from. *)
Lemma station_data_ok_inv (fs : filesystem) (file_path : string)
  (start_row : Z) (pressure air_flow : R) (s : station) :
  station_data' fs file_path start_row pressure air_flow = Ok s ->
  read_excel_data float_of_str fs file_path 3 start_row 3
  = Ok [dry_bulb_temperature s; relative_humidity s; co2_level s]
  /\ calculate_wet_bulb_temperature GetTWetBulbFromRelHum
       (dry_bulb_temperature s) (relative_humidity s) pressure
     = Ok (wet_bulb_temperature s)
  /\ calculate_psychrometrics CalcPsychrometricsFromTWetBulb
       (dry_bulb_temperature s) (wet_bulb_temperature s) pressure
     = Ok (humidity_ratio s, dew_point_temperature s, calc_relative_humidity s,
           partial_pressure s, moist_air_enthalpy s, specific_volume s,
           degree_of_saturation s)
  /\ calculate_dry_air_enthalpy GetDryAirEnthalpy (dry_bulb_temperature s)
     = Ok (dry_air_enthalpy s)
  /\ calculate_air_density GetMoistAirDensity
       (dry_bulb_temperature s) (humidity_ratio s) pressure
     = Ok (air_density s)
  /\ co2_flow s = calculate_co2_flow (co2_level s) air_flow.
Proof.
  unfold station_data. intros H.
  destruct (read_excel_data float_of_str fs file_path 3 start_row 3)
    as [data | e] eqn:Edata; [ | discriminate H].
  cbn [bind] in H.
  destruct data as [ | t [ | rh [ | co2 [ | x data]]]];
    try discriminate H.
  cbn [bind unpack3] in H.
  destruct (calculate_wet_bulb_temperature GetTWetBulbFromRelHum t rh pressure)
    as [wb | e] eqn:Ewb; [ | discriminate H].
  cbn [bind] in H.
  destruct (calculate_psychrometrics CalcPsychrometricsFromTWetBulb t wb pressure)
    as [[[[[[[w dp] crh] pv] h] v] mu] | e] eqn:Epsy; [ | discriminate H].
  cbn [bind] in H.
  destruct (calculate_dry_air_enthalpy GetDryAirEnthalpy t)
    as [hd | e] eqn:Ehd; [ | discriminate H].
  cbn [bind] in H.
  destruct (calculate_air_density GetMoistAirDensity t w pressure)
    as [rho | e] eqn:Erho; [ | discriminate H].
  cbn [bind] in H.
  injection H as <-. cbn.
  repeat split; assumption || reflexivity.
Qed.

(** Where the fields of the report come from. *)
Lemma process_file_try_ok_inv (fs : filesystem) (file_path : string)
  (r : report) :
  process_file_try' fs file_path = Ok r ->
  get_altitude_and_airflow float_of_str fs (file_path ++ ".xlsx")
  = Ok (altitude r, air_flow r, resin_diameter r, resin_mass r,
        resin_density r, chamber_diameter r)
  /\ calculate_pressure_from_altitude GetStandardAtmPressure (altitude r)
     = Ok (pressure r)
  /\ resin_bed_geometry (resin_diameter r) (resin_mass r) (resin_density r)
     = Ok (resin r)
  /\ station_data' fs (file_path ++ ".xlsx") 8 (pressure r) (air_flow r)
     = Ok (inlet r)
  /\ station_data' fs (file_path ++ ".xlsx") 12 (pressure r) (air_flow r)
     = Ok (outlet r)
  /\ co2_change r
     = calculate_co2_change (co2_flow (inlet r)) (co2_flow (outlet r))
  /\ co2_change_label r = calculate_co2_change_label (co2_change r)
  /\ mass_flow r = air_density (outlet r) * (air_flow r / 1000)
  /\ energy_flux_inlet r
     = calculate_energy_flux (moist_air_enthalpy (inlet r)) (mass_flow r)
  /\ energy_flux_outlet r
     = calculate_energy_flux (moist_air_enthalpy (outlet r)) (mass_flow r)
  /\ chamber_gas_speed (chamber_diameter r) (air_flow r) = Ok (chamber r).
Proof.
  unfold process_file_try. cbv zeta. intros H.
  destruct (get_altitude_and_airflow float_of_str fs (file_path ++ ".xlsx"))
    as [[[[[[alt q] d] m] rho] cd] | e] eqn:Eget; [ | discriminate H].
  cbn [bind] in H.
  destruct (calculate_pressure_from_altitude GetStandardAtmPressure alt)
    as [p | e] eqn:Ep; [ | discriminate H].
  cbn [bind] in H.
  destruct (resin_bed_geometry d m rho) as [g | e] eqn:Eg; [ | discriminate H].
  cbn [bind] in H.
  match type of H with
  | bind ?c _ = _ => destruct c as [i | e] eqn:Ei; [ | discriminate H]
  end.
  cbn [bind] in H.
  match type of H with
  | bind ?c _ = _ => destruct c as [o | e] eqn:Eo; [ | discriminate H]
  end.
  cbn [bind] in H.
  destruct (chamber_gas_speed cd q) as [c | e] eqn:Ec; [ | discriminate H].
  cbn [bind] in H.
  injection H as <-. cbn.
  repeat split; assumption || reflexivity.
Qed.

(** The three readings of a data set are the numbers of three cells. *)
Lemma station_data_readings (fs : filesystem) (file_path : string)
  (sheet : worksheet) (start_row : Z) (pressure air_flow : R) (s : station) :
  fs file_path = Ok sheet -> (1 <= start_row)%Z ->
  station_data' fs file_path start_row pressure air_flow = Ok s ->
  dry_bulb_temperature s = cell_number float_of_str (sheet start_row 3%Z)
  /\ relative_humidity s
     = cell_number float_of_str (sheet (start_row + 1)%Z 3%Z)
  /\ co2_level s = cell_number float_of_str (sheet (start_row + 2)%Z 3%Z).
Proof.
  intros Hfs Hrow H.
  destruct (station_data_ok_inv _ _ _ _ _ _ H) as (Hread & _).
  destruct (read_excel_data_ok_inv _ _ _ _ _ _ _ Hread) as (sheet' & Hfs' & Hdata).
  assert (sheet' = sheet) by congruence. subst sheet'.
  change (range 3) with [0; 1; 2]%Z in Hdata.
  cbv beta iota delta [map] in Hdata.
  replace (0 + start_row)%Z with start_row in Hdata by lia.
  replace (1 + start_row)%Z with (start_row + 1)%Z in Hdata by lia.
  replace (2 + start_row)%Z with (start_row + 2)%Z in Hdata by lia.
  injection Hdata as H1 H2 H3. repeat split; assumption.
Qed.

(** C8. In every report the program computes, the airflow is [float] of
    cell C6 and the outlet state is that of the readings in C12 and C13
    at the standard pressure of the altitude in C5; the mass flow is the
    outlet air density (psychrolib's moist-air density of that outlet
    state) multiplied by the airflow divided by 1000 (L/s to m3/s), and
    the inlet and the outlet energy flux are the moist-air enthalpy of the
    inlet and of the outlet state (the fifth value psychrolib returns for
    the state) multiplied by that one mass flow. *)
Theorem process_file_mass_flow_and_energy_flux
  (fs : filesystem) (file_path : string) (r : report) :
  process_file_try' fs file_path = Ok r ->
  exists sheet : worksheet,
    fs (file_path ++ ".xlsx") = Ok sheet
    /\ py_float float_of_str (sheet 5 3)%Z = Ok (altitude r)
    /\ py_float float_of_str (sheet 6 3)%Z = Ok (air_flow r)
    /\ GetStandardAtmPressure (altitude r) = Ok (pressure r)
    /\ dry_bulb_temperature (inlet r) = cell_number float_of_str (sheet 8 3)%Z
    /\ relative_humidity (inlet r) = cell_number float_of_str (sheet 9 3)%Z
    /\ dry_bulb_temperature (outlet r) = cell_number float_of_str (sheet 12 3)%Z
    /\ relative_humidity (outlet r) = cell_number float_of_str (sheet 13 3)%Z
    /\ GetTWetBulbFromRelHum (dry_bulb_temperature (inlet r))
         (relative_humidity (inlet r) / 100) (pressure r)
       = Ok (wet_bulb_temperature (inlet r))
    /\ GetTWetBulbFromRelHum (dry_bulb_temperature (outlet r))
         (relative_humidity (outlet r) / 100) (pressure r)
       = Ok (wet_bulb_temperature (outlet r))
    /\ GetMoistAirDensity (dry_bulb_temperature (outlet r))
         (humidity_ratio (outlet r)) (pressure r)
       = Ok (air_density (outlet r))
    /\ mass_flow r = air_density (outlet r) * (air_flow r / 1000)
    /\ CalcPsychrometricsFromTWetBulb (dry_bulb_temperature (inlet r))
         (wet_bulb_temperature (inlet r)) (pressure r)
       = Ok (humidity_ratio (inlet r), dew_point_temperature (inlet r),
             calc_relative_humidity (inlet r), partial_pressure (inlet r),
             moist_air_enthalpy (inlet r), specific_volume (inlet r),
             degree_of_saturation (inlet r))
    /\ energy_flux_inlet r = moist_air_enthalpy (inlet r) * mass_flow r
    /\ CalcPsychrometricsFromTWetBulb (dry_bulb_temperature (outlet r))
         (wet_bulb_temperature (outlet r)) (pressure r)
       = Ok (humidity_ratio (outlet r), dew_point_temperature (outlet r),
             calc_relative_humidity (outlet r), partial_pressure (outlet r),
             moist_air_enthalpy (outlet r), specific_volume (outlet r),
             degree_of_saturation (outlet r))
    /\ energy_flux_outlet r = moist_air_enthalpy (outlet r) * mass_flow r.
Proof.
  intros H.
  destruct (process_file_try_ok_inv _ _ _ H)
    as (Hget & Hp & _ & Hin & Hout & _ & _ & Hmass & Hei & Heo & _).
  destruct (get_altitude_and_airflow_sheet _ _ _ _ Hget) as [sheet Hfs].
  destruct (get_altitude_and_airflow_ok_inv _ _ _ _ _ _ _ _ _ _ Hfs Hget)
    as (Ha & Hq & _).
  destruct (station_data_ok_inv _ _ _ _ _ _ Hin) as (_ & Hwi & Hpi & _ & _ & _).
  destruct (station_data_ok_inv _ _ _ _ _ _ Hout)
    as (_ & Hwo & Hpo & _ & Hrho & _).
  destruct (station_data_readings _ _ sheet 8%Z _ _ _ Hfs ltac:(lia) Hin)
    as (Hti & Hri & _).
  destruct (station_data_readings _ _ sheet 12%Z _ _ _ Hfs ltac:(lia) Hout)
    as (Hto & Hro & _).
  unfold calculate_pressure_from_altitude in Hp.
  unfold calculate_wet_bulb_temperature in Hwi, Hwo.
  unfold calculate_psychrometrics in Hpi, Hpo.
  unfold calculate_air_density in Hrho.
  unfold calculate_energy_flux in Hei, Heo.
  exists sheet. repeat split; assumption.
Qed.

(** [process_file] passes on what the [try] block raises first: the block
    is a chain of calls, and a call that raises ends it. *)
Lemma process_file_try_stops_at_workbook (fs : filesystem)
  (file_path : string) (e : exn) :
  get_altitude_and_airflow float_of_str fs (file_path ++ ".xlsx") = Raise e ->
  process_file_try' fs file_path = Raise e.
Proof.
  intros H. unfold process_file_try. cbv zeta.
  rewrite H. reflexivity.
Qed.

Lemma process_file_try_stops_at_resin (fs : filesystem) (file_path : string)
  (altitude air_flow resin_diameter resin_mass resin_density
   chamber_diameter pressure : R) (e : exn) :
  get_altitude_and_airflow float_of_str fs (file_path ++ ".xlsx")
  = Ok (altitude, air_flow, resin_diameter, resin_mass, resin_density,
        chamber_diameter) ->
  calculate_pressure_from_altitude GetStandardAtmPressure altitude
  = Ok pressure ->
  resin_bed_geometry resin_diameter resin_mass resin_density = Raise e ->
  process_file_try' fs file_path = Raise e.
Proof.
  intros Hget Hp Hg. unfold process_file_try. cbv zeta.
  rewrite Hget. cbn [bind]. rewrite Hp. cbn [bind]. rewrite Hg. reflexivity.
Qed.

(** The [try] block raises [e] exactly when one of its six steps raises
    [e] after all the steps before it have returned. *)
Lemma process_file_try_first_failure (fs : filesystem) (file_path : string)
  (e : exn) :
  process_file_try' fs file_path = Raise e
  <-> (get_altitude_and_airflow float_of_str fs (file_path ++ ".xlsx") = Raise e
       \/ exists a q d m rho cd : R,
            get_altitude_and_airflow float_of_str fs (file_path ++ ".xlsx")
            = Ok (a, q, d, m, rho, cd)
            /\ (calculate_pressure_from_altitude GetStandardAtmPressure a
                = Raise e
                \/ exists p : R,
                     calculate_pressure_from_altitude GetStandardAtmPressure a
                     = Ok p
                     /\ (resin_bed_geometry d m rho = Raise e
                         \/ exists g : resin_bed,
                              resin_bed_geometry d m rho = Ok g
                              /\ (station_data' fs (file_path ++ ".xlsx") 8 p q
                                  = Raise e
                                  \/ exists i : station,
                                       station_data' fs (file_path ++ ".xlsx")
                                         8 p q = Ok i
                                       /\ (station_data' fs
                                             (file_path ++ ".xlsx") 12 p q
                                           = Raise e
                                           \/ exists o : station,
                                                station_data' fs
                                                  (file_path ++ ".xlsx") 12 p q
                                                = Ok o
                                                /\ chamber_gas_speed cd q
                                                   = Raise e))))).
Proof.
  unfold process_file_try. cbv zeta.
  destruct (get_altitude_and_airflow float_of_str fs (file_path ++ ".xlsx"))
    as [[[[[[a q] d] m] rho] cd] | e0]; cbn [bind].
  2: { split; [intros H; left; congruence | ].
       intros [H | (a & q & d & m & rho & cd & H & _)];
         [congruence | discriminate H]. }
  destruct (calculate_pressure_from_altitude GetStandardAtmPressure a)
    as [p | e1] eqn:Ep; cbn [bind].
  2: { split.
       - intros H. right. exists a, q, d, m, rho, cd.
         split; [reflexivity | left; rewrite Ep; congruence].
       - intros [H | (a' & q' & d' & m' & rho' & cd' & Heq & Hrest)];
           [discriminate H | ].
         injection Heq as <- <- <- <- <- <-.
         destruct Hrest as [H | (p & H & _)];
           [rewrite Ep in H; congruence | rewrite Ep in H; discriminate H]. }
  destruct (resin_bed_geometry d m rho) as [g | e2] eqn:Eg; cbn [bind].
  2: { split.
       - intros H. right. exists a, q, d, m, rho, cd.
         split; [reflexivity | right]. exists p.
         split; [exact Ep | left; rewrite Eg; congruence].
       - intros [H | (a' & q' & d' & m' & rho' & cd' & Heq & Hrest)];
           [discriminate H | ].
         injection Heq as <- <- <- <- <- <-.
         destruct Hrest as [H | (p' & Hp' & Hrest)];
           [rewrite Ep in H; discriminate H | ].
         rewrite Ep in Hp'. injection Hp' as <-.
         destruct Hrest as [H | (g & H & _)];
           [rewrite Eg in H; congruence | rewrite Eg in H; discriminate H]. }
  destruct (station_data' fs (file_path ++ ".xlsx") 8 p q)
    as [i | e3] eqn:Ei; cbn [bind].
  2: { split.
       - intros H. right. exists a, q, d, m, rho, cd.
         split; [reflexivity | right]. exists p.
         split; [exact Ep | right]. exists g.
         split; [exact Eg | left; rewrite Ei; congruence].
       - intros [H | (a' & q' & d' & m' & rho' & cd' & Heq & Hrest)];
           [discriminate H | ].
         injection Heq as <- <- <- <- <- <-.
         destruct Hrest as [H | (p' & Hp' & Hrest)];
           [rewrite Ep in H; discriminate H | ].
         rewrite Ep in Hp'. injection Hp' as <-.
         destruct Hrest as [H | (g' & Hg' & Hrest)];
           [rewrite Eg in H; discriminate H | ].
         destruct Hrest as [H | (i & H & _)];
           [rewrite Ei in H; congruence | rewrite Ei in H; discriminate H]. }
  destruct (station_data' fs (file_path ++ ".xlsx") 12 p q)
    as [o | e4] eqn:Eo; cbn [bind].
  2: { split.
       - intros H. right. exists a, q, d, m, rho, cd.
         split; [reflexivity | right]. exists p.
         split; [exact Ep | right]. exists g.
         split; [exact Eg | right]. exists i.
         split; [exact Ei | left; rewrite Eo; congruence].
       - intros [H | (a' & q' & d' & m' & rho' & cd' & Heq & Hrest)];
           [discriminate H | ].
         injection Heq as <- <- <- <- <- <-.
         destruct Hrest as [H | (p' & Hp' & Hrest)];
           [rewrite Ep in H; discriminate H | ].
         rewrite Ep in Hp'. injection Hp' as <-.
         destruct Hrest as [H | (g' & Hg' & Hrest)];
           [rewrite Eg in H; discriminate H | ].
         destruct Hrest as [H | (i' & Hi' & Hrest)];
           [rewrite Ei in H; discriminate H | ].
         destruct Hrest as [H | (o & H & _)];
           [rewrite Eo in H; congruence | rewrite Eo in H; discriminate H]. }
  destruct (chamber_gas_speed cd q) as [c | e5] eqn:Ec; cbn [bind].
  - split; [intros H; discriminate H | ].
    intros [H | (a' & q' & d' & m' & rho' & cd' & Heq & Hrest)];
      [discriminate H | ].
    injection Heq as <- <- <- <- <- <-.
    destruct Hrest as [H | (p' & Hp' & Hrest)];
      [rewrite Ep in H; discriminate H | ].
    rewrite Ep in Hp'. injection Hp' as <-.
    destruct Hrest as [H | (g' & Hg' & Hrest)];
      [rewrite Eg in H; discriminate H | ].
    destruct Hrest as [H | (i' & Hi' & Hrest)];
      [rewrite Ei in H; discriminate H | ].
    destruct Hrest as [H | (o' & Ho' & H)];
      [rewrite Eo in H; discriminate H | rewrite Ec in H; discriminate H].
  - split.
    + intros H. right. exists a, q, d, m, rho, cd.
      split; [reflexivity | right]. exists p.
      split; [exact Ep | right]. exists g.
      split; [exact Eg | right]. exists i.
      split; [exact Ei | right]. exists o.
      split; [exact Eo | rewrite Ec; congruence].
    + intros [H | (a' & q' & d' & m' & rho' & cd' & Heq & Hrest)];
        [discriminate H | ].
      injection Heq as <- <- <- <- <- <-.
      destruct Hrest as [H | (p' & Hp' & Hrest)];
        [rewrite Ep in H; discriminate H | ].
      rewrite Ep in Hp'. injection Hp' as <-.
      destruct Hrest as [H | (g' & Hg' & Hrest)];
        [rewrite Eg in H; discriminate H | ].
      destruct Hrest as [H | (i' & Hi' & Hrest)];
        [rewrite Ei in H; discriminate H | ].
      destruct Hrest as [H | (o' & Ho' & H)];
        [rewrite Eo in H; discriminate H | rewrite Ec in H; congruence].
Qed.

(** C2, as the program has it.  [process_file] never raises.  Its [try]
    block runs six steps in order (the six rig cells, the pressure, the
    resin bed, the inlet data set, the outlet data set, the chamber) and
    raises exactly what the first step that raises has raised; whatever
    that exception is, [process_file] returns with the window as it was:
    the error is caught and dropped, nothing reaches the caller and
    nothing is written.  When no step raises, the output widget holds the
    message of the report and the entry is left as it was; the readings of
    that report are the numbers of their cells, 0 for a cell on which
    [float] raises ValueError or TypeError. *)
Theorem process_file_drops_errors (fs : filesystem) (window : gui) :
  (exists window' : gui,
     process_file' fs window = Ok window'
     /\ entry_file_path window' = entry_file_path window
     /\ (forall e : exn,
           process_file_try' fs (entry_file_path window) = Raise e ->
           window' = window)
     /\ (forall r : report,
           process_file_try' fs (entry_file_path window) = Ok r ->
           text_output window' = output_message r))
  /\ (forall e : exn,
        process_file_try' fs (entry_file_path window) = Raise e
        <-> (get_altitude_and_airflow float_of_str fs
               (entry_file_path window ++ ".xlsx") = Raise e
             \/ exists a q d m rho cd : R,
                  get_altitude_and_airflow float_of_str fs
                    (entry_file_path window ++ ".xlsx")
                  = Ok (a, q, d, m, rho, cd)
                  /\ (calculate_pressure_from_altitude GetStandardAtmPressure a
                      = Raise e
                      \/ exists p : R,
                           calculate_pressure_from_altitude
                             GetStandardAtmPressure a = Ok p
                           /\ (resin_bed_geometry d m rho = Raise e
                               \/ exists g : resin_bed,
                                    resin_bed_geometry d m rho = Ok g
                                    /\ (station_data' fs
                                          (entry_file_path window ++ ".xlsx")
                                          8 p q = Raise e
                                        \/ exists i : station,
                                             station_data' fs
                                               (entry_file_path window ++ ".xlsx")
                                               8 p q = Ok i
                                             /\ (station_data' fs
                                                   (entry_file_path window
                                                    ++ ".xlsx") 12 p q
                                                 = Raise e
                                                 \/ exists o : station,
                                                      station_data' fs
                                                        (entry_file_path window
                                                         ++ ".xlsx") 12 p q
                                                      = Ok o
                                                      /\ chamber_gas_speed cd q
                                                         = Raise e))))))
  /\ (forall (sheet : worksheet) (r : report),
        fs (entry_file_path window ++ ".xlsx") = Ok sheet ->
        process_file_try' fs (entry_file_path window) = Ok r ->
        dry_bulb_temperature (inlet r) = cell_number float_of_str (sheet 8 3)%Z
        /\ relative_humidity (inlet r) = cell_number float_of_str (sheet 9 3)%Z
        /\ co2_level (inlet r) = cell_number float_of_str (sheet 10 3)%Z
        /\ dry_bulb_temperature (outlet r)
           = cell_number float_of_str (sheet 12 3)%Z
        /\ relative_humidity (outlet r)
           = cell_number float_of_str (sheet 13 3)%Z
        /\ co2_level (outlet r) = cell_number float_of_str (sheet 14 3)%Z)
  /\ (forall (value : cell_value) (e : exn),
        py_float float_of_str value = Raise e ->
        cell_number float_of_str value = 0).
Proof.
  split; [ | split; [ | split]].
  - unfold process_file. cbv zeta.
    destruct (process_file_try' fs (entry_file_path window)) as [r | e] eqn:E.
    + eexists. split; [reflexivity | ].
      split; [reflexivity | ].
      split.
      * intros e He. discriminate He.
      * intros r' Hr'. injection Hr' as <-. reflexivity.
    + exists window. split; [reflexivity | ].
      split; [reflexivity | ].
      split.
      * intros _ _. reflexivity.
      * intros r Hr. discriminate Hr.
  - intros e. apply process_file_try_first_failure.
  - intros sheet r Hfs H.
    destruct (process_file_try_ok_inv _ _ _ H)
      as (_ & _ & _ & Hin & Hout & _).
    destruct (station_data_readings _ _ sheet 8%Z _ _ _ Hfs ltac:(lia) Hin)
      as (H1 & H2 & H3).
    destruct (station_data_readings _ _ sheet 12%Z _ _ _ Hfs ltac:(lia) Hout)
      as (H4 & H5 & H6).
    repeat split; assumption.
  - intros value e He. unfold cell_number. rewrite He. reflexivity.
Qed.

End Report.

(** ** The program on the fixture workbooks *)

(** No reading of "rig.xlsx" or "gaps.xlsx" is an int that no double can
    hold. *)
Lemma fixture_readings_no_overflow (sheet : worksheet) (row : Z) :
  sheet = Fixture.rig \/ sheet = Fixture.gaps ->
  (8 <= row < 15)%Z ->
  py_float Fixture.float_of_str (sheet row 3%Z) <> Raise OverflowError.
Proof.
  intros Hsheet Hrow.
  assert (Hcases : row = 8%Z \/ row = 9%Z \/ row = 10%Z \/ row = 11%Z
                   \/ row = 12%Z \/ row = 13%Z \/ row = 14%Z) by lia.
  destruct Hsheet as [-> | ->];
    destruct Hcases as [-> | [-> | [-> | [-> | [-> | [-> | ->]]]]]];
    discriminate.
Qed.

Lemma fixture_station (name : string) (sheet : worksheet) (start_row : Z)
  (pressure air_flow : R) :
  Fixture.fs name = Ok sheet -> (1 <= start_row)%Z ->
  (start_row + 3 <= max_row + 1)%Z ->
  (forall row : Z,
     (start_row <= row < start_row + 3)%Z ->
     py_float Fixture.float_of_str (sheet row 3%Z) <> Raise OverflowError) ->
  exists s : station,
    station_data Fixture.float_of_str Fixture.GetTWetBulbFromRelHum
      Fixture.GetDryAirEnthalpy Fixture.GetMoistAirDensity
      Fixture.CalcPsychrometricsFromTWetBulb Fixture.fs name start_row
      pressure air_flow
    = Ok s
    /\ dry_bulb_temperature s
       = cell_number Fixture.float_of_str (sheet (0 + start_row)%Z 3%Z)
    /\ relative_humidity s
       = cell_number Fixture.float_of_str (sheet (1 + start_row)%Z 3%Z)
    /\ co2_level s
       = cell_number Fixture.float_of_str (sheet (2 + start_row)%Z 3%Z).
Proof.
  intros Hfs Hrow Hlast Hover. unfold station_data.
  rewrite (read_excel_data_spec _ _ _ sheet) by (assumption || lia).
  change (range 3) with [0; 1; 2]%Z.
  cbn [map bind unpack3].
  unfold calculate_wet_bulb_temperature, calculate_psychrometrics,
    calculate_dry_air_enthalpy, calculate_air_density,
    Fixture.GetTWetBulbFromRelHum, Fixture.CalcPsychrometricsFromTWetBulb,
    Fixture.GetDryAirEnthalpy, Fixture.GetMoistAirDensity.
  cbn [bind].
  eexists. split; [reflexivity | ].
  cbn. repeat split; reflexivity.
Qed.

Lemma fixture_runs (name : string) (sheet : worksheet) :
  Fixture.fs (name ++ ".xlsx") = Ok sheet ->
  sheet = Fixture.rig \/ sheet = Fixture.gaps ->
  get_altitude_and_airflow Fixture.float_of_str Fixture.fs (name ++ ".xlsx")
  = Ok (0, 10, 1, 1, 1000, 10) ->
  exists r : report,
    Fixture.run_try name = Ok r
    /\ air_flow r = 10
    /\ relative_humidity (inlet r)
       = cell_number Fixture.float_of_str (sheet 9%Z 3%Z)
    /\ co2_level (inlet r)
       = cell_number Fixture.float_of_str (sheet 10%Z 3%Z).
Proof.
  intros Hfs Hsheet Hget. unfold Fixture.run_try, process_file_try. cbv zeta.
  rewrite Hget. cbn [bind].
  rewrite sea_level_pressure. cbn [bind].
  rewrite resin_bed_geometry_ok by lra. cbn [bind].
  destruct (fixture_station (name ++ ".xlsx") sheet 8 101325 10 Hfs)
    as (i & Ei & _ & Hrh & Hco2);
    [lia | unfold max_row; lia
    | intros row Hrow; apply fixture_readings_no_overflow; [exact Hsheet | lia]
    | ].
  rewrite Ei. cbn [bind].
  destruct (fixture_station (name ++ ".xlsx") sheet 12 101325 10 Hfs)
    as (o & Eo & _);
    [lia | unfold max_row; lia
    | intros row Hrow; apply fixture_readings_no_overflow; [exact Hsheet | lia]
    | ].
  rewrite Eo. cbn [bind].
  rewrite chamber_gas_speed_ok by lra. cbn [bind].
  eexists. split; [reflexivity | ].
  cbn [air_flow inlet]. split; [reflexivity | ].
  split; [exact Hrh | exact Hco2].
Qed.

Lemma fixture_rig_runs :
  exists r : report, Fixture.run_try "rig" = Ok r /\ air_flow r = 10.
Proof.
  destruct (fixture_runs "rig" Fixture.rig) as (r & Hr & Hq & _);
    [reflexivity | left; reflexivity | reflexivity | ].
  exists r. split; assumption.
Qed.

Lemma process_file_mass_flow_and_energy_flux_witness :
  exists r : report,
    Fixture.run_try "rig" = Ok r
    /\ exists sheet : worksheet,
         Fixture.fs ("rig" ++ ".xlsx") = Ok sheet
         /\ py_float Fixture.float_of_str (sheet 5 3)%Z = Ok (altitude r)
         /\ py_float Fixture.float_of_str (sheet 6 3)%Z = Ok (air_flow r)
         /\ psychrolib_SI.GetStandardAtmPressure (altitude r) = Ok (pressure r)
         /\ dry_bulb_temperature (inlet r)
            = cell_number Fixture.float_of_str (sheet 8 3)%Z
         /\ relative_humidity (inlet r)
            = cell_number Fixture.float_of_str (sheet 9 3)%Z
         /\ dry_bulb_temperature (outlet r)
            = cell_number Fixture.float_of_str (sheet 12 3)%Z
         /\ relative_humidity (outlet r)
            = cell_number Fixture.float_of_str (sheet 13 3)%Z
         /\ Fixture.GetTWetBulbFromRelHum (dry_bulb_temperature (inlet r))
              (relative_humidity (inlet r) / 100) (pressure r)
            = Ok (wet_bulb_temperature (inlet r))
         /\ Fixture.GetTWetBulbFromRelHum (dry_bulb_temperature (outlet r))
              (relative_humidity (outlet r) / 100) (pressure r)
            = Ok (wet_bulb_temperature (outlet r))
         /\ Fixture.GetMoistAirDensity (dry_bulb_temperature (outlet r))
              (humidity_ratio (outlet r)) (pressure r)
            = Ok (air_density (outlet r))
         /\ mass_flow r = air_density (outlet r) * (air_flow r / 1000)
         /\ Fixture.CalcPsychrometricsFromTWetBulb
              (dry_bulb_temperature (inlet r))
              (wet_bulb_temperature (inlet r)) (pressure r)
            = Ok (humidity_ratio (inlet r), dew_point_temperature (inlet r),
                  calc_relative_humidity (inlet r), partial_pressure (inlet r),
                  moist_air_enthalpy (inlet r), specific_volume (inlet r),
                  degree_of_saturation (inlet r))
         /\ energy_flux_inlet r = moist_air_enthalpy (inlet r) * mass_flow r
         /\ Fixture.CalcPsychrometricsFromTWetBulb
              (dry_bulb_temperature (outlet r))
              (wet_bulb_temperature (outlet r)) (pressure r)
            = Ok (humidity_ratio (outlet r), dew_point_temperature (outlet r),
                  calc_relative_humidity (outlet r),
                  partial_pressure (outlet r), moist_air_enthalpy (outlet r),
                  specific_volume (outlet r), degree_of_saturation (outlet r))
         /\ energy_flux_outlet r = moist_air_enthalpy (outlet r) * mass_flow r.
Proof.
  destruct fixture_rig_runs as (r & Hr & _).
  exists r. split; [exact Hr | ].
  exact (process_file_mass_flow_and_energy_flux
           Fixture.float_of_str Fixture.GetTWetBulbFromRelHum
           Fixture.GetDryAirEnthalpy Fixture.GetMoistAirDensity
           Fixture.CalcPsychrometricsFromTWetBulb
           psychrolib_SI.GetStandardAtmPressure Fixture.fs "rig" r Hr).
Defined.

(** C2 fails on the program.  The sheet of "blank.xlsx" is empty, so reading
    the altitude raises TypeError, and "missing.xlsx" does not exist, so
    loading it raises FileNotFoundError: in both cases [process_file]
    returns with the window untouched and the caller sees no error.  And
    on "gaps.xlsx", whose inlet humidity is the text "n/a" and whose inlet
    CO2 cell is empty, the report is computed with 0 in their place. *)
Lemma process_file_swallows_failures :
  Fixture.run_try "blank" = Raise TypeError
  /\ Fixture.run (Fixture.window "blank") = Ok (Fixture.window "blank")
  /\ Fixture.run_try "missing" = Raise FileNotFoundError
  /\ Fixture.run (Fixture.window "missing") = Ok (Fixture.window "missing")
  /\ exists r : report,
       Fixture.run_try "gaps" = Ok r
       /\ relative_humidity (inlet r) = 0
       /\ co2_level (inlet r) = 0.
Proof.
  assert (Hblank : Fixture.run_try "blank" = Raise TypeError).
  { apply process_file_try_stops_at_workbook. reflexivity. }
  assert (Hmissing : Fixture.run_try "missing" = Raise FileNotFoundError).
  { apply process_file_try_stops_at_workbook. reflexivity. }
  split; [exact Hblank | ].
  split.
  { unfold Fixture.run, process_file. cbv zeta.
    change (entry_file_path (Fixture.window "blank")) with "blank".
    fold (Fixture.run_try "blank"). rewrite Hblank. reflexivity. }
  split; [exact Hmissing | ].
  split.
  { unfold Fixture.run, process_file. cbv zeta.
    change (entry_file_path (Fixture.window "missing")) with "missing".
    fold (Fixture.run_try "missing"). rewrite Hmissing. reflexivity. }
  destruct (fixture_runs "gaps" Fixture.gaps) as (r & Hr & _ & Hrh & Hco2);
    [reflexivity | right; reflexivity | reflexivity | ].
  exists r. split; [exact Hr | ].
  split; [rewrite Hrh | rewrite Hco2]; reflexivity.
Qed.

(** * Further properties of the program *)

(** ** Reading a column: counts, coordinates, composition *)

Lemma range_nonpositive (n : Z) : (n <= 0)%Z -> range n = [].
Proof.
  intros Hn. unfold range.
  replace (Z.to_nat n) with 0%nat by lia. reflexivity.
Qed.

Lemma range_positive (n : Z) :
  (1 <= n)%Z -> exists rows, range n = 0%Z :: rows.
Proof.
  intros Hn. unfold range.
  destruct (Z.to_nat n) as [ | k] eqn:E; [lia | ].
  simpl. eexists. reflexivity.
Qed.

Lemma seq_from (a len : nat) :
  seq a len = map (fun k => (a + k)%nat) (seq 0 len).
Proof.
  revert a. induction len as [ | len IH]; intros a.
  - reflexivity.
  - simpl. rewrite Nat.add_0_r. f_equal.
    rewrite (IH (S a)), (IH 1%nat), map_map.
    apply map_ext. intros k. lia.
Qed.

Lemma range_app (n m : Z) :
  (0 <= n)%Z -> (0 <= m)%Z ->
  range (n + m) = (range n ++ map (fun row => (n + row)%Z) (range m))%list.
Proof.
  intros Hn Hm. unfold range.
  rewrite Z2Nat.inj_add by assumption.
  rewrite seq_app, map_app, map_map. f_equal.
  simpl. rewrite (seq_from (Z.to_nat n)), map_map.
  apply map_ext. intros k. lia.
Qed.

(** X1. A row count of zero or less gives the empty list, whatever the
    column and the first row, as soon as the workbook loads: no cell is
    looked up. *)
Theorem read_excel_data_no_rows
  (float_of_str : string -> option R) (fs : filesystem) (file_path : string)
  (sheet : worksheet) (col start_row num_of_rows : Z) :
  fs file_path = Ok sheet -> (num_of_rows <= 0)%Z ->
  read_excel_data float_of_str fs file_path col start_row num_of_rows = Ok [].
Proof.
  intros Hfs Hn. unfold read_excel_data.
  rewrite Hfs. cbn [bind].
  rewrite range_nonpositive by exact Hn. reflexivity.
Qed.

Lemma read_excel_data_no_rows_witness :
  (Fixture.fs "rig.xlsx" = Ok Fixture.rig /\ (-2 <= 0)%Z)
  /\ read_excel_data Fixture.float_of_str Fixture.fs "rig.xlsx" 0 (-7) (-2)
     = Ok [].
Proof.
  split.
  - split; [reflexivity | lia].
  - apply (read_excel_data_no_rows Fixture.float_of_str Fixture.fs "rig.xlsx"
             Fixture.rig 0 (-7) (-2)); [reflexivity | lia].
Defined.

(** X2. A column or a first row below 1 is not turned into zeros.  The cell
    is looked up before the [try], so with at least one row to read the
    ValueError of the lookup leaves [read_excel_data]. *)
Theorem read_excel_data_bad_coordinates
  (float_of_str : string -> option R) (fs : filesystem) (file_path : string)
  (sheet : worksheet) (col start_row num_of_rows : Z) :
  fs file_path = Ok sheet -> (1 <= num_of_rows)%Z ->
  (col < 1)%Z \/ (start_row < 1)%Z ->
  read_excel_data float_of_str fs file_path col start_row num_of_rows
  = Raise ValueError.
Proof.
  intros Hfs Hn Hbad. unfold read_excel_data.
  rewrite Hfs. cbn [bind].
  destruct (range_positive num_of_rows Hn) as [rows ->].
  cbn [read_rows]. unfold cell.
  replace ((0 + start_row <? 1) || (col <? 1))%Z with true; [reflexivity | ].
  symmetry. apply orb_true_iff.
  destruct Hbad as [Hc | Hr].
  - right. apply Z.ltb_lt. exact Hc.
  - left. apply Z.ltb_lt. lia.
Qed.

Lemma read_excel_data_bad_coordinates_witness :
  (Fixture.fs "rig.xlsx" = Ok Fixture.rig /\ (1 <= 3)%Z
   /\ ((0 < 1)%Z \/ (8 < 1)%Z))
  /\ read_excel_data Fixture.float_of_str Fixture.fs "rig.xlsx" 0 8 3
     = Raise ValueError.
Proof.
  split.
  - split; [reflexivity | split; [lia | left; lia]].
  - apply (read_excel_data_bad_coordinates Fixture.float_of_str Fixture.fs
             "rig.xlsx" Fixture.rig 0 8 3); [reflexivity | lia | left; lia].
Defined.

(** X3. Reading [n + m] rows from [start_row] is reading [n] rows from
    [start_row] followed by reading [m] rows from [start_row + n]: the
    result is the first list followed by the second, and an exception of
    the first or, failing that, of the second read is the exception of the
    whole read. *)
Theorem read_excel_data_splits
  (float_of_str : string -> option R) (fs : filesystem) (file_path : string)
  (col start_row n m : Z) :
  (0 <= n)%Z -> (0 <= m)%Z ->
  read_excel_data float_of_str fs file_path col start_row (n + m)
  = (first <- read_excel_data float_of_str fs file_path col start_row n ;;
     rest <- read_excel_data float_of_str fs file_path col (start_row + n) m ;;
     Ok (first ++ rest)%list).
Proof.
  intros Hn Hm. unfold read_excel_data.
  destruct (fs file_path) as [sheet | e]; cbn [bind]; [ | reflexivity].
  rewrite range_app by assumption.
  rewrite read_rows_app.
  destruct (read_rows float_of_str sheet col start_row (range n) [])
    as [first | e]; cbn [bind]; [ | reflexivity].
  rewrite read_rows_shift.
  apply read_rows_from.
Qed.

Lemma read_excel_data_splits_witness :
  ((0 <= 2)%Z /\ (0 <= 1)%Z)
  /\ read_excel_data Fixture.float_of_str Fixture.fs "huge.xlsx" 3 8 (2 + 1)
     = (first <- read_excel_data Fixture.float_of_str Fixture.fs "huge.xlsx"
                   3 8 2 ;;
        rest <- read_excel_data Fixture.float_of_str Fixture.fs "huge.xlsx"
                  3 (8 + 2) 1 ;;
        Ok (first ++ rest)%list).
Proof.
  split.
  - split; lia.
  - apply (read_excel_data_splits Fixture.float_of_str Fixture.fs "huge.xlsx"
             3 8 2 1); lia.
Defined.

(** X4. The list depends on nothing but the cells of the column in the rows
    [start_row] to [start_row + num_of_rows - 1]: two workbooks that agree
    there give the same list. *)
Theorem read_excel_data_reads_only_its_rows
  (float_of_str : string -> option R) (fs fs' : filesystem)
  (file_path file_path' : string) (sheet sheet' : worksheet)
  (col start_row num_of_rows : Z) :
  fs file_path = Ok sheet -> fs' file_path' = Ok sheet' ->
  (1 <= col)%Z -> (1 <= start_row)%Z ->
  (forall row : Z,
     (start_row <= row < start_row + num_of_rows)%Z ->
     sheet row col = sheet' row col) ->
  read_excel_data float_of_str fs file_path col start_row num_of_rows
  = read_excel_data float_of_str fs' file_path' col start_row num_of_rows.
Proof.
  intros Hfs Hfs' Hc Hs Hsame.
  unfold read_excel_data. rewrite Hfs, Hfs'. cbn [bind].
  apply read_rows_ext. intros row Hin.
  apply Hsame.
  unfold range in Hin. apply in_map_iff in Hin.
  destruct Hin as [k [<- Hk]]. apply in_seq in Hk. lia.
Qed.

Lemma read_excel_data_reads_only_its_rows_witness :
  (Fixture.fs "rig.xlsx" = Ok Fixture.rig
   /\ Fixture.fs "gaps.xlsx" = Ok Fixture.gaps
   /\ (1 <= 3)%Z /\ (1 <= 12)%Z
   /\ forall row : Z,
        (12 <= row < 12 + 3)%Z -> Fixture.rig row 3%Z = Fixture.gaps row 3%Z)
  /\ read_excel_data Fixture.float_of_str Fixture.fs "rig.xlsx" 3 12 3
     = read_excel_data Fixture.float_of_str Fixture.fs "gaps.xlsx" 3 12 3.
Proof.
  assert (Hsame : forall row : Z,
            (12 <= row < 12 + 3)%Z ->
            Fixture.rig row 3%Z = Fixture.gaps row 3%Z).
  { intros row Hrow.
    assert (Hcases : row = 12%Z \/ row = 13%Z \/ row = 14%Z) by lia.
    destruct Hcases as [-> | [-> | ->]]; reflexivity. }
  split.
  - refine (conj _ (conj _ (conj _ (conj _ _))));
      [reflexivity | reflexivity | lia | lia | exact Hsame].
  - apply (read_excel_data_reads_only_its_rows Fixture.float_of_str
             Fixture.fs Fixture.fs "rig.xlsx" "gaps.xlsx"
             Fixture.rig Fixture.gaps 3 12 3);
      [reflexivity | reflexivity | lia | lia | exact Hsame].
Defined.

(** ** The six cells of the rig *)

(** X5. [get_altitude_and_airflow] substitutes nothing.  On a workbook that
    loads it returns a tuple exactly when [float] accepts each of the cells
    C5, C6, G5, G6, G7 and G9, and the tuple holds their six numbers in
    that order. *)
Theorem get_altitude_and_airflow_strict
  (float_of_str : string -> option R) (fs : filesystem) (file_path : string)
  (sheet : worksheet) (a q d m rho cd : R) :
  fs file_path = Ok sheet ->
  get_altitude_and_airflow float_of_str fs file_path = Ok (a, q, d, m, rho, cd)
  <-> (py_float float_of_str (sheet 5 3)%Z = Ok a
       /\ py_float float_of_str (sheet 6 3)%Z = Ok q
       /\ py_float float_of_str (sheet 5 7)%Z = Ok d
       /\ py_float float_of_str (sheet 6 7)%Z = Ok m
       /\ py_float float_of_str (sheet 7 7)%Z = Ok rho
       /\ py_float float_of_str (sheet 9 7)%Z = Ok cd).
Proof.
  intros Hfs.
  rewrite (get_altitude_and_airflow_loaded _ _ _ sheet Hfs).
  split.
  - intros H.
    destruct (py_float float_of_str (sheet 5 3)%Z); [ | discriminate H].
    destruct (py_float float_of_str (sheet 6 3)%Z); [ | discriminate H].
    destruct (py_float float_of_str (sheet 5 7)%Z); [ | discriminate H].
    destruct (py_float float_of_str (sheet 6 7)%Z); [ | discriminate H].
    destruct (py_float float_of_str (sheet 7 7)%Z); [ | discriminate H].
    destruct (py_float float_of_str (sheet 9 7)%Z); [ | discriminate H].
    cbn [bind] in H. injection H as -> -> -> -> -> ->.
    repeat split; reflexivity.
  - intros (-> & -> & -> & -> & -> & ->). reflexivity.
Qed.

Lemma get_altitude_and_airflow_strict_witness :
  Fixture.fs "rig.xlsx" = Ok Fixture.rig
  /\ (get_altitude_and_airflow Fixture.float_of_str Fixture.fs "rig.xlsx"
      = Ok (0, 10, 1, 1, 1000, 10)
      <-> (py_float Fixture.float_of_str (Fixture.rig 5 3)%Z = Ok 0
           /\ py_float Fixture.float_of_str (Fixture.rig 6 3)%Z = Ok 10
           /\ py_float Fixture.float_of_str (Fixture.rig 5 7)%Z = Ok 1
           /\ py_float Fixture.float_of_str (Fixture.rig 6 7)%Z = Ok 1
           /\ py_float Fixture.float_of_str (Fixture.rig 7 7)%Z = Ok 1000
           /\ py_float Fixture.float_of_str (Fixture.rig 9 7)%Z = Ok 10)).
Proof.
  split.
  - reflexivity.
  - apply (get_altitude_and_airflow_strict Fixture.float_of_str Fixture.fs
             "rig.xlsx" Fixture.rig 0 10 1 1 1000 10).
    reflexivity.
Defined.

(** X6. When [get_altitude_and_airflow] raises on a workbook that loads, the
    exception is the one [float] raised on one of its six cells, a
    ValueError, a TypeError or an OverflowError; nothing is caught. *)
Theorem get_altitude_and_airflow_raises
  (float_of_str : string -> option R) (fs : filesystem) (file_path : string)
  (sheet : worksheet) (e : exn) :
  fs file_path = Ok sheet ->
  get_altitude_and_airflow float_of_str fs file_path = Raise e ->
  (e = ValueError \/ e = TypeError \/ e = OverflowError)
  /\ exists row column : Z,
       In (row, column) [(5, 3); (6, 3); (5, 7); (6, 7); (7, 7); (9, 7)]%Z
       /\ py_float float_of_str (sheet row column) = Raise e.
Proof.
  intros Hfs.
  rewrite (get_altitude_and_airflow_loaded _ _ _ sheet Hfs).
  assert (Hfound : forall row column : Z,
            In (row, column) [(5, 3); (6, 3); (5, 7); (6, 7); (7, 7); (9, 7)]%Z ->
            py_float float_of_str (sheet row column) = Raise e ->
            (e = ValueError \/ e = TypeError \/ e = OverflowError)
            /\ exists row column : Z,
                 In (row, column)
                   [(5, 3); (6, 3); (5, 7); (6, 7); (7, 7); (9, 7)]%Z
                 /\ py_float float_of_str (sheet row column) = Raise e).
  { intros row column Hin He. split.
    - exact (py_float_raises _ _ _ He).
    - exists row, column. split; assumption. }
  intros H.
  destruct (py_float float_of_str (sheet 5 3)%Z) eqn:E1; cbn [bind] in H;
    [ | injection H as ->; apply (Hfound 5 3)%Z; simpl; auto].
  destruct (py_float float_of_str (sheet 6 3)%Z) eqn:E2; cbn [bind] in H;
    [ | injection H as ->; apply (Hfound 6 3)%Z; simpl; auto].
  destruct (py_float float_of_str (sheet 5 7)%Z) eqn:E3; cbn [bind] in H;
    [ | injection H as ->; apply (Hfound 5 7)%Z; simpl; auto].
  destruct (py_float float_of_str (sheet 6 7)%Z) eqn:E4; cbn [bind] in H;
    [ | injection H as ->; apply (Hfound 6 7)%Z; simpl; auto].
  destruct (py_float float_of_str (sheet 7 7)%Z) eqn:E5; cbn [bind] in H;
    [ | injection H as ->; apply (Hfound 7 7)%Z; simpl; auto 10].
  destruct (py_float float_of_str (sheet 9 7)%Z) eqn:E6; cbn [bind] in H;
    [discriminate H | injection H as ->; apply (Hfound 9 7)%Z; simpl; auto 10].
Qed.

Lemma get_altitude_and_airflow_raises_witness :
  (Fixture.fs "blank.xlsx" = Ok Fixture.blank
   /\ get_altitude_and_airflow Fixture.float_of_str Fixture.fs "blank.xlsx"
      = Raise TypeError)
  /\ (TypeError = ValueError \/ TypeError = TypeError
      \/ TypeError = OverflowError)
  /\ exists row column : Z,
       In (row, column) [(5, 3); (6, 3); (5, 7); (6, 7); (7, 7); (9, 7)]%Z
       /\ py_float Fixture.float_of_str (Fixture.blank row column)
          = Raise TypeError.
Proof.
  split.
  - split; reflexivity.
  - apply (get_altitude_and_airflow_raises Fixture.float_of_str Fixture.fs
             "blank.xlsx" Fixture.blank TypeError); reflexivity.
Defined.

(** ** The resin bed and the chamber: round trips and scaling *)

Lemma resin_bed_geometry_ok_inv
  (resin_diameter resin_mass resin_density : R) (g : resin_bed) :
  resin_bed_geometry resin_diameter resin_mass resin_density = Ok g ->
  resin_diameter <> 0 /\ resin_mass <> 0 /\ resin_density <> 0.
Proof.
  intros H.
  destruct (Req_dec_T resin_diameter 0) as [Hd | Hd].
  { rewrite resin_bed_geometry_zero in H by auto. discriminate H. }
  destruct (Req_dec_T resin_mass 0) as [Hm | Hm].
  { rewrite resin_bed_geometry_zero in H by auto. discriminate H. }
  destruct (Req_dec_T resin_density 0) as [Hrho | Hrho].
  { rewrite resin_bed_geometry_zero in H by auto. discriminate H. }
  auto.
Qed.

Lemma chamber_gas_speed_ok_inv (chamber_diameter air_flow : R)
  (c : chamber_flow) :
  chamber_gas_speed chamber_diameter air_flow = Ok c -> chamber_diameter <> 0.
Proof.
  intros H Hzero. subst chamber_diameter.
  rewrite chamber_gas_speed_zero in H. discriminate H.
Qed.

(** X7. Whenever the geometry block returns, its numbers fit together: the
    bead count times the volume of one bead is the total resin volume, the
    total resin volume times the density is the mass, and the total surface
    area is six times the total volume divided by the bead diameter in
    metres. *)
Theorem resin_bed_geometry_consistent
  (resin_diameter resin_mass resin_density : R) (g : resin_bed) :
  resin_bed_geometry resin_diameter resin_mass resin_density = Ok g ->
  rough_number_of_spheres g * single_sphere_volume g = total_resin_volume g
  /\ total_resin_volume g * resin_density = resin_mass
  /\ total_surface_area g = 6 * total_resin_volume g / resin_diameter_m g
  /\ resin_diameter_m g * 1000 = resin_diameter.
Proof.
  intros H.
  destruct (resin_bed_geometry_ok_inv _ _ _ _ H) as (Hd & Hm & Hrho).
  rewrite resin_bed_geometry_ok in H by assumption.
  injection H as <-.
  cbn [rough_number_of_spheres single_sphere_volume total_resin_volume
       total_surface_area resin_diameter_m].
  pose proof PI_RGT_0 as Hpi.
  repeat split; field; repeat split; lra || assumption.
Qed.

Lemma resin_bed_geometry_consistent_witness :
  exists g : resin_bed,
    resin_bed_geometry 1 1 1000 = Ok g
    /\ rough_number_of_spheres g * single_sphere_volume g = total_resin_volume g
    /\ total_resin_volume g * 1000 = 1
    /\ total_surface_area g = 6 * total_resin_volume g / resin_diameter_m g
    /\ resin_diameter_m g * 1000 = 1.
Proof.
  eexists. split.
  - apply resin_bed_geometry_ok; lra.
  - apply (resin_bed_geometry_consistent 1 1 1000).
    apply resin_bed_geometry_ok; lra.
Defined.

(** X8. For a positive bead diameter, resin mass and resin density the
    geometry block returns, and every number it returns is positive. *)
Theorem resin_bed_geometry_positive
  (resin_diameter resin_mass resin_density : R) :
  0 < resin_diameter -> 0 < resin_mass -> 0 < resin_density ->
  exists g : resin_bed,
    resin_bed_geometry resin_diameter resin_mass resin_density = Ok g
    /\ 0 < resin_diameter_m g /\ 0 < resin_radius g
    /\ 0 < single_sphere_surface_area g /\ 0 < single_sphere_volume g
    /\ 0 < total_resin_volume g /\ 0 < rough_number_of_spheres g
    /\ 0 < total_surface_area g.
Proof.
  intros Hd Hm Hrho. pose proof PI_RGT_0 as Hpi.
  eexists. split; [apply resin_bed_geometry_ok; lra | ].
  cbn [resin_diameter_m resin_radius single_sphere_surface_area
       single_sphere_volume total_resin_volume rough_number_of_spheres
       total_surface_area].
  assert (Hdm : 0 < resin_diameter / 1000) by lra.
  assert (Hr : 0 < resin_diameter / 1000 / 2) by lra.
  assert (Ha : 0 < PI * (resin_diameter / 1000) ^ 2).
  { apply Rmult_lt_0_compat; [exact Hpi | apply pow_lt; exact Hdm]. }
  assert (Hv : 0 < 4 / 3 * PI * (resin_diameter / 1000 / 2) ^ 3).
  { apply Rmult_lt_0_compat; [lra | apply pow_lt; exact Hr]. }
  assert (Hq : 0 < resin_density / resin_mass)
    by (apply Rdiv_lt_0_compat; assumption).
  assert (Ht : 0 < 1 / (resin_density / resin_mass))
    by (apply Rdiv_lt_0_compat; [lra | exact Hq]).
  assert (Hn : 0 < 1 / (resin_density / resin_mass)
                   / (4 / 3 * PI * (resin_diameter / 1000 / 2) ^ 3))
    by (apply Rdiv_lt_0_compat; assumption).
  repeat split; try assumption.
  apply Rmult_lt_0_compat; assumption.
Qed.

Lemma resin_bed_geometry_positive_witness :
  (0 < 1 /\ 0 < 1 /\ 0 < 1000)
  /\ exists g : resin_bed,
       resin_bed_geometry 1 1 1000 = Ok g
       /\ 0 < resin_diameter_m g /\ 0 < resin_radius g
       /\ 0 < single_sphere_surface_area g /\ 0 < single_sphere_volume g
       /\ 0 < total_resin_volume g /\ 0 < rough_number_of_spheres g
       /\ 0 < total_surface_area g.
Proof.
  split.
  - repeat split; lra.
  - apply (resin_bed_geometry_positive 1 1 1000); lra.
Defined.

(** X9. For the same mass and density, beads of half the diameter are eight
    times as many and have twice the total surface area. *)
Theorem resin_bed_geometry_half_diameter
  (resin_diameter resin_mass resin_density : R) (g : resin_bed) :
  resin_bed_geometry resin_diameter resin_mass resin_density = Ok g ->
  exists h : resin_bed,
    resin_bed_geometry (resin_diameter / 2) resin_mass resin_density = Ok h
    /\ total_resin_volume h = total_resin_volume g
    /\ rough_number_of_spheres h = 8 * rough_number_of_spheres g
    /\ total_surface_area h = 2 * total_surface_area g.
Proof.
  intros H.
  destruct (resin_bed_geometry_ok_inv _ _ _ _ H) as (Hd & Hm & Hrho).
  rewrite resin_bed_geometry_ok in H by assumption.
  injection H as <-.
  eexists. split; [apply resin_bed_geometry_ok; lra || assumption | ].
  cbn [total_resin_volume rough_number_of_spheres total_surface_area].
  pose proof PI_RGT_0 as Hpi.
  repeat split; field; repeat split; lra || assumption.
Qed.

Lemma resin_bed_geometry_half_diameter_witness :
  exists g : resin_bed,
    resin_bed_geometry 1 1 1000 = Ok g
    /\ exists h : resin_bed,
         resin_bed_geometry (1 / 2) 1 1000 = Ok h
         /\ total_resin_volume h = total_resin_volume g
         /\ rough_number_of_spheres h = 8 * rough_number_of_spheres g
         /\ total_surface_area h = 2 * total_surface_area g.
Proof.
  eexists. split.
  - apply resin_bed_geometry_ok; lra.
  - apply (resin_bed_geometry_half_diameter 1 1 1000).
    apply resin_bed_geometry_ok; lra.
Defined.

(** X10. Whenever the chamber block returns, the gas speed times the
    cross-section in m2 is the airflow in m3/s, the cross-section in cm2 is
    10000 times the one in m2, and the chamber diameter is not zero. *)
Theorem chamber_gas_speed_consistent (chamber_diameter air_flow : R)
  (c : chamber_flow) :
  chamber_gas_speed chamber_diameter air_flow = Ok c ->
  chamber_diameter <> 0
  /\ chamber_speed c * c_area_m2 c = air_m3_s c
  /\ air_m3_s c * 1000 = air_flow
  /\ chamber_area c = c_area_m2 c * 10000
  /\ c_radius c * 2 = chamber_diameter.
Proof.
  intros H.
  pose proof (chamber_gas_speed_ok_inv _ _ _ H) as Hd.
  rewrite chamber_gas_speed_ok in H by exact Hd.
  injection H as <-.
  cbn [chamber_speed c_area_m2 air_m3_s chamber_area c_radius].
  pose proof PI_RGT_0 as Hpi.
  split; [exact Hd | ].
  repeat split; field; repeat split; lra || assumption.
Qed.

Lemma chamber_gas_speed_consistent_witness :
  exists c : chamber_flow,
    chamber_gas_speed 10 10 = Ok c
    /\ 10 <> 0
    /\ chamber_speed c * c_area_m2 c = air_m3_s c
    /\ air_m3_s c * 1000 = 10
    /\ chamber_area c = c_area_m2 c * 10000
    /\ c_radius c * 2 = 10.
Proof.
  eexists. split.
  - apply chamber_gas_speed_ok; lra.
  - apply (chamber_gas_speed_consistent 10 10).
    apply chamber_gas_speed_ok; lra.
Defined.

(** X11. The gas speed is proportional to the airflow and to the inverse
    square of the chamber diameter: a chamber [k] times as wide carrying
    [j] times the airflow has [j / k^2] times the gas speed. *)
Theorem chamber_gas_speed_scales (chamber_diameter air_flow k j : R)
  (c : chamber_flow) :
  k <> 0 ->
  chamber_gas_speed chamber_diameter air_flow = Ok c ->
  exists c' : chamber_flow,
    chamber_gas_speed (k * chamber_diameter) (j * air_flow) = Ok c'
    /\ chamber_speed c' = j / k ^ 2 * chamber_speed c.
Proof.
  intros Hk H.
  pose proof (chamber_gas_speed_ok_inv _ _ _ H) as Hd.
  rewrite chamber_gas_speed_ok in H by exact Hd.
  injection H as <-.
  eexists. split.
  - apply chamber_gas_speed_ok.
    apply Rmult_integral_contrapositive_currified; assumption.
  - cbn [chamber_speed]. pose proof PI_RGT_0 as Hpi.
    field. repeat split; lra || assumption.
Qed.

Lemma chamber_gas_speed_scales_witness :
  2 <> 0
  /\ exists c : chamber_flow,
       chamber_gas_speed 10 10 = Ok c
       /\ exists c' : chamber_flow,
            chamber_gas_speed (2 * 10) (3 * 10) = Ok c'
            /\ chamber_speed c' = 3 / 2 ^ 2 * chamber_speed c.
Proof.
  split; [lra | ].
  eexists. split.
  - apply chamber_gas_speed_ok; lra.
  - apply (chamber_gas_speed_scales 10 10 2 3); [lra | ].
    apply chamber_gas_speed_ok; lra.
Defined.

(** ** The CO2 label *)

Lemma co2_label_cases (c : R) :
  (0 < c /\ calculate_co2_change_label c = "CO2 Release")
  \/ (c < 0 /\ calculate_co2_change_label c = "CO2 Capture")
  \/ (c = 0 /\ calculate_co2_change_label c = "No Change in CO2").
Proof.
  destruct (Rtotal_order c 0) as [Hneg | [Hzero | Hpos]].
  - right. left. split; [exact Hneg | apply co2_label_capture; exact Hneg].
  - right. right. split; [exact Hzero | apply co2_label_no_change; exact Hzero].
  - left. split; [exact Hpos | apply co2_label_release; exact Hpos].
Qed.

(** X12. Exchanging inlet and outlet negates the CO2 change and exchanges
    "CO2 Release" with "CO2 Capture"; "No Change in CO2" stays. *)
Theorem co2_label_swaps_with_stations (co2_flow_inlet co2_flow_outlet : R) :
  calculate_co2_change co2_flow_outlet co2_flow_inlet
  = - calculate_co2_change co2_flow_inlet co2_flow_outlet
  /\ (calculate_co2_change_label
        (calculate_co2_change co2_flow_inlet co2_flow_outlet) = "CO2 Release"
      <-> calculate_co2_change_label
            (calculate_co2_change co2_flow_outlet co2_flow_inlet)
          = "CO2 Capture")
  /\ (calculate_co2_change_label
        (calculate_co2_change co2_flow_inlet co2_flow_outlet) = "CO2 Capture"
      <-> calculate_co2_change_label
            (calculate_co2_change co2_flow_outlet co2_flow_inlet)
          = "CO2 Release")
  /\ (calculate_co2_change_label
        (calculate_co2_change co2_flow_inlet co2_flow_outlet)
      = "No Change in CO2"
      <-> calculate_co2_change_label
            (calculate_co2_change co2_flow_outlet co2_flow_inlet)
          = "No Change in CO2").
Proof.
  assert (Hneg : calculate_co2_change co2_flow_outlet co2_flow_inlet
                 = - calculate_co2_change co2_flow_inlet co2_flow_outlet)
    by (unfold calculate_co2_change; lra).
  split; [exact Hneg | ].
  rewrite Hneg.
  set (c := calculate_co2_change co2_flow_inlet co2_flow_outlet).
  destruct (co2_label_cases c) as [[Hc ->] | [[Hc ->] | [Hc ->]]];
    destruct (co2_label_cases (- c)) as [[Hn ->] | [[Hn ->] | [Hn ->]]];
    try lra;
    repeat split; intros H; (discriminate H || reflexivity).
Qed.

(** X13. With a positive airflow the label compares the two CO2 levels:
    "CO2 Release" exactly when the outlet level is above the inlet level,
    "CO2 Capture" exactly when it is below, "No Change in CO2" exactly when
    the two levels are equal. *)
Theorem co2_label_compares_levels
  (co2_level_inlet co2_level_outlet air_flow : R) :
  0 < air_flow ->
  (calculate_co2_change_label
     (calculate_co2_change (calculate_co2_flow co2_level_inlet air_flow)
        (calculate_co2_flow co2_level_outlet air_flow)) = "CO2 Release"
   <-> co2_level_inlet < co2_level_outlet)
  /\ (calculate_co2_change_label
        (calculate_co2_change (calculate_co2_flow co2_level_inlet air_flow)
           (calculate_co2_flow co2_level_outlet air_flow)) = "CO2 Capture"
      <-> co2_level_outlet < co2_level_inlet)
  /\ (calculate_co2_change_label
        (calculate_co2_change (calculate_co2_flow co2_level_inlet air_flow)
           (calculate_co2_flow co2_level_outlet air_flow))
      = "No Change in CO2"
      <-> co2_level_inlet = co2_level_outlet).
Proof.
  intros Hq.
  assert (Hc : calculate_co2_change
                 (calculate_co2_flow co2_level_inlet air_flow)
                 (calculate_co2_flow co2_level_outlet air_flow)
               = air_flow * (co2_level_outlet - co2_level_inlet))
    by (unfold calculate_co2_change, calculate_co2_flow; lra).
  rewrite Hc.
  destruct (co2_label_cases (air_flow * (co2_level_outlet - co2_level_inlet)))
    as [[Hs ->] | [[Hs ->] | [Hs ->]]];
    repeat split; intros H'; try discriminate H'; try reflexivity; nra.
Qed.

Lemma co2_label_compares_levels_witness :
  0 < 10
  /\ (calculate_co2_change_label
        (calculate_co2_change (calculate_co2_flow 400 10)
           (calculate_co2_flow 350 10)) = "CO2 Release"
      <-> 400 < 350)
  /\ (calculate_co2_change_label
        (calculate_co2_change (calculate_co2_flow 400 10)
           (calculate_co2_flow 350 10)) = "CO2 Capture"
      <-> 350 < 400)
  /\ (calculate_co2_change_label
        (calculate_co2_change (calculate_co2_flow 400 10)
           (calculate_co2_flow 350 10)) = "No Change in CO2"
      <-> 400 = 350).
Proof.
  split.
  - lra.
  - apply (co2_label_compares_levels 400 350 10). lra.
Defined.

(** X14. With no airflow the label is "No Change in CO2" whatever the two
    CO2 levels are, and with a negative airflow the label is reversed:
    "CO2 Release" exactly when the outlet level is below the inlet
    level. *)
Theorem co2_label_without_forward_flow
  (co2_level_inlet co2_level_outlet air_flow : R) :
  air_flow <= 0 ->
  (air_flow = 0 ->
   calculate_co2_change_label
     (calculate_co2_change (calculate_co2_flow co2_level_inlet air_flow)
        (calculate_co2_flow co2_level_outlet air_flow))
   = "No Change in CO2")
  /\ (air_flow < 0 ->
      (calculate_co2_change_label
         (calculate_co2_change (calculate_co2_flow co2_level_inlet air_flow)
            (calculate_co2_flow co2_level_outlet air_flow)) = "CO2 Release"
       <-> co2_level_outlet < co2_level_inlet)).
Proof.
  intros Hq.
  assert (Hc : calculate_co2_change
                 (calculate_co2_flow co2_level_inlet air_flow)
                 (calculate_co2_flow co2_level_outlet air_flow)
               = air_flow * (co2_level_outlet - co2_level_inlet))
    by (unfold calculate_co2_change, calculate_co2_flow; lra).
  rewrite Hc. split.
  - intros ->. apply co2_label_no_change. lra.
  - intros Hneg.
    destruct (co2_label_cases (air_flow * (co2_level_outlet - co2_level_inlet)))
      as [[Hs ->] | [[Hs ->] | [Hs ->]]];
      split; intros H'; try discriminate H'; try reflexivity; nra.
Qed.

Lemma co2_label_without_forward_flow_witness :
  0 <= 0
  /\ (0 = 0 ->
      calculate_co2_change_label
        (calculate_co2_change (calculate_co2_flow 400 0)
           (calculate_co2_flow 350 0))
      = "No Change in CO2")
  /\ (0 < 0 ->
      (calculate_co2_change_label
         (calculate_co2_change (calculate_co2_flow 400 0)
            (calculate_co2_flow 350 0)) = "CO2 Release"
       <-> 350 < 400)).
Proof.
  split.
  - lra.
  - apply (co2_label_without_forward_flow 400 350 0). lra.
Defined.

(** ** The report: where it comes from, when it is written *)

Section ReportFacts.

Variable float_of_str : string -> option R.
Variable GetTWetBulbFromRelHum : R -> R -> R -> result R.
Variable GetDryAirEnthalpy : R -> result R.
Variable GetMoistAirDensity : R -> R -> R -> result R.
Variable CalcPsychrometricsFromTWetBulb :
  R -> R -> R -> result (R * R * R * R * R * R * R).
Variable GetStandardAtmPressure : R -> result R.

(** [f'] is [f] of the program applied to the functions above. *)
Local Abbreviation station_data' :=
  (station_data float_of_str GetTWetBulbFromRelHum GetDryAirEnthalpy
     GetMoistAirDensity CalcPsychrometricsFromTWetBulb).
Local Abbreviation process_file_try' :=
  (process_file_try float_of_str GetTWetBulbFromRelHum GetDryAirEnthalpy
     GetMoistAirDensity CalcPsychrometricsFromTWetBulb GetStandardAtmPressure).
Local Abbreviation process_file' :=
  (process_file float_of_str GetTWetBulbFromRelHum GetDryAirEnthalpy
     GetMoistAirDensity CalcPsychrometricsFromTWetBulb GetStandardAtmPressure).

(** X15. In every report the six rig values are [float] of the cells C5, C6,
    G5, G6, G7 and G9, the inlet readings (dry bulb, relative humidity, CO2
    level) are the numbers of the cells C8, C9 and C10, and the outlet
    readings those of C12, C13 and C14, a reading being 0 when [float]
    rejects its cell. *)
Theorem process_file_try_reads_fixed_cells
  (fs : filesystem) (file_path : string) (sheet : worksheet) (r : report) :
  fs (file_path ++ ".xlsx") = Ok sheet ->
  process_file_try' fs file_path = Ok r ->
  (py_float float_of_str (sheet 5 3)%Z = Ok (altitude r)
   /\ py_float float_of_str (sheet 6 3)%Z = Ok (air_flow r)
   /\ py_float float_of_str (sheet 5 7)%Z = Ok (resin_diameter r)
   /\ py_float float_of_str (sheet 6 7)%Z = Ok (resin_mass r)
   /\ py_float float_of_str (sheet 7 7)%Z = Ok (resin_density r)
   /\ py_float float_of_str (sheet 9 7)%Z = Ok (chamber_diameter r))
  /\ (dry_bulb_temperature (inlet r) = cell_number float_of_str (sheet 8 3)%Z
      /\ relative_humidity (inlet r) = cell_number float_of_str (sheet 9 3)%Z
      /\ co2_level (inlet r) = cell_number float_of_str (sheet 10 3)%Z)
  /\ (dry_bulb_temperature (outlet r) = cell_number float_of_str (sheet 12 3)%Z
      /\ relative_humidity (outlet r) = cell_number float_of_str (sheet 13 3)%Z
      /\ co2_level (outlet r) = cell_number float_of_str (sheet 14 3)%Z).
Proof.
  intros Hfs H.
  destruct (process_file_try_ok_inv _ _ _ _ _ _ _ _ _ H)
    as (Hget & _ & _ & Hin & Hout & _).
  split; [ | split].
  - exact (get_altitude_and_airflow_ok_inv _ _ _ _ _ _ _ _ _ _ Hfs Hget).
  - apply (station_data_readings float_of_str GetTWetBulbFromRelHum
             GetDryAirEnthalpy GetMoistAirDensity
             CalcPsychrometricsFromTWetBulb fs (file_path ++ ".xlsx") sheet
             8%Z (pressure r) (air_flow r) (inlet r) Hfs); [lia | exact Hin].
  - apply (station_data_readings float_of_str GetTWetBulbFromRelHum
             GetDryAirEnthalpy GetMoistAirDensity
             CalcPsychrometricsFromTWetBulb fs (file_path ++ ".xlsx") sheet
             12%Z (pressure r) (air_flow r) (outlet r) Hfs);
      [lia | exact Hout].
Qed.

(** X16. A report exists only for a rig whose bead diameter, resin mass,
    resin density and chamber diameter are all different from zero. *)
Theorem process_file_try_report_nonzero
  (fs : filesystem) (file_path : string) (r : report) :
  process_file_try' fs file_path = Ok r ->
  resin_diameter r <> 0 /\ resin_mass r <> 0 /\ resin_density r <> 0
  /\ chamber_diameter r <> 0.
Proof.
  intros H.
  destruct (process_file_try_ok_inv _ _ _ _ _ _ _ _ _ H)
    as (_ & _ & Hresin & _ & _ & _ & _ & _ & _ & _ & Hchamber).
  destruct (resin_bed_geometry_ok_inv _ _ _ _ Hresin) as (Hd & Hm & Hrho).
  pose proof (chamber_gas_speed_ok_inv _ _ _ Hchamber) as Hcd.
  auto.
Qed.

(** X17. In every report each CO2 flow is the station's CO2 level times the
    airflow in L/s, the CO2 change is the airflow times the difference of
    the two levels (outlet minus inlet), and the label printed with it is
    the label of that change. *)
Theorem process_file_try_co2_balance
  (fs : filesystem) (file_path : string) (r : report) :
  process_file_try' fs file_path = Ok r ->
  co2_flow (inlet r) = co2_level (inlet r) * air_flow r
  /\ co2_flow (outlet r) = co2_level (outlet r) * air_flow r
  /\ co2_change r
     = air_flow r * (co2_level (outlet r) - co2_level (inlet r))
  /\ co2_change_label r
     = calculate_co2_change_label
         (air_flow r * (co2_level (outlet r) - co2_level (inlet r))).
Proof.
  intros H.
  destruct (process_file_try_ok_inv _ _ _ _ _ _ _ _ _ H)
    as (_ & _ & _ & Hin & Hout & Hchange & Hlabel & _).
  destruct (station_data_ok_inv _ _ _ _ _ _ _ _ _ _ _ Hin)
    as (_ & _ & _ & _ & _ & Hfi).
  destruct (station_data_ok_inv _ _ _ _ _ _ _ _ _ _ _ Hout)
    as (_ & _ & _ & _ & _ & Hfo).
  unfold calculate_co2_flow in Hfi, Hfo.
  assert (Hc : co2_change r
               = air_flow r * (co2_level (outlet r) - co2_level (inlet r))).
  { rewrite Hchange, Hfi, Hfo. unfold calculate_co2_change. lra. }
  repeat split; try assumption.
  rewrite Hlabel, Hc. reflexivity.
Qed.

(** X18. In every report the pressure is psychrolib's standard pressure at
    the altitude of the rig, and both stations are evaluated at that one
    pressure: the wet-bulb temperature is psychrolib's for the dry bulb and
    the relative humidity divided by 100, the dry-air enthalpy is
    psychrolib's for the dry bulb, and the inlet air density is psychrolib's
    for the inlet dry bulb and humidity ratio. *)
Theorem process_file_try_library_calls
  (fs : filesystem) (file_path : string) (r : report) :
  process_file_try' fs file_path = Ok r ->
  GetStandardAtmPressure (altitude r) = Ok (pressure r)
  /\ GetTWetBulbFromRelHum (dry_bulb_temperature (inlet r))
       (relative_humidity (inlet r) / 100) (pressure r)
     = Ok (wet_bulb_temperature (inlet r))
  /\ GetTWetBulbFromRelHum (dry_bulb_temperature (outlet r))
       (relative_humidity (outlet r) / 100) (pressure r)
     = Ok (wet_bulb_temperature (outlet r))
  /\ GetDryAirEnthalpy (dry_bulb_temperature (inlet r))
     = Ok (dry_air_enthalpy (inlet r))
  /\ GetDryAirEnthalpy (dry_bulb_temperature (outlet r))
     = Ok (dry_air_enthalpy (outlet r))
  /\ GetMoistAirDensity (dry_bulb_temperature (inlet r))
       (humidity_ratio (inlet r)) (pressure r)
     = Ok (air_density (inlet r)).
Proof.
  intros H.
  destruct (process_file_try_ok_inv _ _ _ _ _ _ _ _ _ H)
    as (_ & Hp & _ & Hin & Hout & _).
  destruct (station_data_ok_inv _ _ _ _ _ _ _ _ _ _ _ Hin)
    as (_ & Hwi & _ & Hdi & Hrhoi & _).
  destruct (station_data_ok_inv _ _ _ _ _ _ _ _ _ _ _ Hout)
    as (_ & Hwo & _ & Hdo & _ & _).
  repeat split; assumption.
Qed.

(** A data set on a workbook that loads, with its three rows on the sheet
    and no int too large in them: the three readings, then the four
    library calls. *)
Lemma station_data_loaded (fs : filesystem) (file_path : string)
  (sheet : worksheet) (start_row : Z) (pressure air_flow : R) :
  fs file_path = Ok sheet -> (1 <= start_row)%Z ->
  (start_row + 3 <= max_row + 1)%Z ->
  (forall row : Z,
     (start_row <= row < start_row + 3)%Z ->
     py_float float_of_str (sheet row 3%Z) <> Raise OverflowError) ->
  station_data' fs file_path start_row pressure air_flow
  = (let t := cell_number float_of_str (sheet start_row 3%Z) in
     let rh := cell_number float_of_str (sheet (start_row + 1)%Z 3%Z) in
     let co2 := cell_number float_of_str (sheet (start_row + 2)%Z 3%Z) in
     wb <- GetTWetBulbFromRelHum t (rh / 100) pressure ;;
     '(w, dp, crh, pv, h, v, mu) <- CalcPsychrometricsFromTWetBulb t wb pressure ;;
     hd <- GetDryAirEnthalpy t ;;
     rho <- GetMoistAirDensity t w pressure ;;
     Ok {| dry_bulb_temperature := t;
           relative_humidity := rh;
           co2_level := co2;
           wet_bulb_temperature := wb;
           humidity_ratio := w;
           dew_point_temperature := dp;
           calc_relative_humidity := crh;
           partial_pressure := pv;
           moist_air_enthalpy := h;
           specific_volume := v;
           degree_of_saturation := mu;
           dry_air_enthalpy := hd;
           air_density := rho;
           co2_flow := calculate_co2_flow co2 air_flow |}).
Proof.
  intros Hfs Hrow Hlast Hover. unfold station_data.
  rewrite (read_excel_data_spec _ _ _ sheet) by (assumption || lia).
  change (range 3) with [0; 1; 2]%Z.
  cbv beta iota delta [map].
  replace (0 + start_row)%Z with start_row by lia.
  replace (1 + start_row)%Z with (start_row + 1)%Z by lia.
  replace (2 + start_row)%Z with (start_row + 2)%Z by lia.
  reflexivity.
Qed.


(** X20. A sufficient condition for a report.  When the workbook named in
    the entry loads, [float] accepts the six rig cells, the bead diameter,
    the resin mass, the resin density and the chamber diameter are not
    zero, no reading (C8 to C10, C12 to C14) is an int that no double can
    hold, and the psychrolib calls the program makes return (the pressure
    at the altitude; for each station the wet bulb, the state at that wet
    bulb, the dry-air enthalpy and the density at the humidity ratio of
    that state), then the [try] block yields a report with these values
    and [process_file] puts its message in the output widget, leaving the
    entry as it was. *)
Theorem process_file_writes_report
  (fs : filesystem) (window : gui) (sheet : worksheet)
  (a q d m rho cd p : R)
  (wbi wi dpi crhi pvi hi vi mui hdi rhoi : R)
  (wbo wo dpo crho pvo ho vo muo hdo rhoo : R) :
  fs (entry_file_path window ++ ".xlsx") = Ok sheet ->
  py_float float_of_str (sheet 5 3)%Z = Ok a ->
  py_float float_of_str (sheet 6 3)%Z = Ok q ->
  py_float float_of_str (sheet 5 7)%Z = Ok d ->
  py_float float_of_str (sheet 6 7)%Z = Ok m ->
  py_float float_of_str (sheet 7 7)%Z = Ok rho ->
  py_float float_of_str (sheet 9 7)%Z = Ok cd ->
  d <> 0 -> m <> 0 -> rho <> 0 -> cd <> 0 ->
  (forall row : Z,
     (8 <= row < 8 + 3)%Z \/ (12 <= row < 12 + 3)%Z ->
     py_float float_of_str (sheet row 3%Z) <> Raise OverflowError) ->
  GetStandardAtmPressure a = Ok p ->
  GetTWetBulbFromRelHum (cell_number float_of_str (sheet 8 3)%Z)
    (cell_number float_of_str (sheet 9 3)%Z / 100) p = Ok wbi ->
  CalcPsychrometricsFromTWetBulb (cell_number float_of_str (sheet 8 3)%Z) wbi p
  = Ok (wi, dpi, crhi, pvi, hi, vi, mui) ->
  GetDryAirEnthalpy (cell_number float_of_str (sheet 8 3)%Z) = Ok hdi ->
  GetMoistAirDensity (cell_number float_of_str (sheet 8 3)%Z) wi p = Ok rhoi ->
  GetTWetBulbFromRelHum (cell_number float_of_str (sheet 12 3)%Z)
    (cell_number float_of_str (sheet 13 3)%Z / 100) p = Ok wbo ->
  CalcPsychrometricsFromTWetBulb (cell_number float_of_str (sheet 12 3)%Z) wbo p
  = Ok (wo, dpo, crho, pvo, ho, vo, muo) ->
  GetDryAirEnthalpy (cell_number float_of_str (sheet 12 3)%Z) = Ok hdo ->
  GetMoistAirDensity (cell_number float_of_str (sheet 12 3)%Z) wo p = Ok rhoo ->
  exists r : report,
    process_file_try' fs (entry_file_path window) = Ok r
    /\ process_file' fs window
       = Ok {| entry_file_path := entry_file_path window;
               text_output := output_message r |}
    /\ altitude r = a /\ air_flow r = q /\ pressure r = p
    /\ wet_bulb_temperature (inlet r) = wbi
    /\ wet_bulb_temperature (outlet r) = wbo
    /\ moist_air_enthalpy (inlet r) = hi
    /\ moist_air_enthalpy (outlet r) = ho
    /\ air_density (outlet r) = rhoo
    /\ mass_flow r = rhoo * (q / 1000).
Proof.
  intros Hfs H1 H2 H3 H4 H5 H6 Hd Hm Hrho Hcd Hover Hp
    Hwbi Hpsi Hhdi Hrhoi Hwbo Hpso Hhdo Hrhoo.
  assert (Htry : exists r : report,
            process_file_try' fs (entry_file_path window) = Ok r
            /\ altitude r = a /\ air_flow r = q /\ pressure r = p
            /\ wet_bulb_temperature (inlet r) = wbi
            /\ wet_bulb_temperature (outlet r) = wbo
            /\ moist_air_enthalpy (inlet r) = hi
            /\ moist_air_enthalpy (outlet r) = ho
            /\ air_density (outlet r) = rhoo
            /\ mass_flow r = rhoo * (q / 1000)).
  { unfold process_file_try. cbv zeta.
    rewrite (get_altitude_and_airflow_ok _ _ _ sheet a q d m rho cd)
      by assumption.
    cbn [bind]. unfold calculate_pressure_from_altitude.
    rewrite Hp. cbn [bind].
    rewrite resin_bed_geometry_ok by assumption. cbn [bind].
    rewrite (station_data_loaded _ _ sheet 8%Z);
      [ | exact Hfs | lia | unfold max_row; lia
        | intros row Hrow; apply Hover; left; exact Hrow ].
    cbv zeta. change (8 + 1)%Z with 9%Z. change (8 + 2)%Z with 10%Z.
    rewrite Hwbi. cbn [bind]. rewrite Hpsi. cbn [bind].
    rewrite Hhdi. cbn [bind]. rewrite Hrhoi. cbn [bind].
    rewrite (station_data_loaded _ _ sheet 12%Z);
      [ | exact Hfs | lia | unfold max_row; lia
        | intros row Hrow; apply Hover; right; exact Hrow ].
    cbv zeta. change (12 + 1)%Z with 13%Z. change (12 + 2)%Z with 14%Z.
    rewrite Hwbo. cbn [bind]. rewrite Hpso. cbn [bind].
    rewrite Hhdo. cbn [bind]. rewrite Hrhoo. cbn [bind].
    rewrite chamber_gas_speed_ok by assumption. cbn [bind].
    eexists. split; [reflexivity | ].
    cbn. repeat split; reflexivity. }
  destruct Htry as (r & Hr & Hrest).
  exists r. split; [exact Hr | ].
  split; [ | exact Hrest].
  unfold process_file. cbv zeta. rewrite Hr. reflexivity.
Qed.

(** X21. A rig the program cannot use leaves the window untouched.  When the
    workbook named in the entry loads and [float] rejects one of the six
    rig cells, or the bead diameter (G5), the resin mass (G6), the resin
    density (G7) or the chamber diameter (G9) is 0, then [process_file]
    returns the window as it was, whatever the rest of the sheet and the
    library do. *)
Theorem process_file_needs_valid_rig
  (fs : filesystem) (window : gui) (sheet : worksheet) (row column : Z) :
  fs (entry_file_path window ++ ".xlsx") = Ok sheet ->
  (In (row, column) [(5, 3); (6, 3); (5, 7); (6, 7); (7, 7); (9, 7)]%Z
   /\ exists e : exn, py_float float_of_str (sheet row column) = Raise e)
  \/ (In (row, column) [(5, 7); (6, 7); (7, 7); (9, 7)]%Z
      /\ py_float float_of_str (sheet row column) = Ok 0) ->
  process_file' fs window = Ok window.
Proof.
  intros Hfs Hbad. unfold process_file. cbv zeta.
  destruct (process_file_try' fs (entry_file_path window)) as [r | e] eqn:E;
    [exfalso | reflexivity].
  destruct (process_file_try_ok_inv _ _ _ _ _ _ _ _ _ E)
    as (Hget & _ & Hresin & _ & _ & _ & _ & _ & _ & _ & Hchamber).
  destruct (get_altitude_and_airflow_ok_inv _ _ _ _ _ _ _ _ _ _ Hfs Hget)
    as (H1 & H2 & H3 & H4 & H5 & H6).
  destruct (resin_bed_geometry_ok_inv _ _ _ _ Hresin) as (Hd & Hm & Hrho).
  pose proof (chamber_gas_speed_ok_inv _ _ _ Hchamber) as Hcd.
  destruct Hbad as [[Hin [e He]] | [Hin Hzero]].
  - simpl in Hin.
    destruct Hin as [Eq | [Eq | [Eq | [Eq | [Eq | [Eq | []]]]]]];
      injection Eq as <- <-; congruence.
  - simpl in Hin.
    destruct Hin as [Eq | [Eq | [Eq | [Eq | []]]]];
      injection Eq as <- <-; congruence.
Qed.

(** X22. Pressing the button twice is pressing it once: on the window that
    [process_file] returns, [process_file] returns that same window (the
    entry is never changed and the output is replaced, not appended
    to). *)
Theorem process_file_idempotent (fs : filesystem) (window window' : gui) :
  process_file' fs window = Ok window' ->
  process_file' fs window' = Ok window'.
Proof.
  unfold process_file. cbv zeta.
  destruct (process_file_try' fs (entry_file_path window)) as [r | e] eqn:E;
    intros H; injection H as <-.
  - cbn [entry_file_path]. rewrite E. reflexivity.
  - rewrite E. reflexivity.
Qed.

End ReportFacts.

(** ** The report on the fixture workbooks *)

Lemma process_file_try_reads_fixed_cells_witness :
  exists r : report,
    (Fixture.fs ("rig" ++ ".xlsx") = Ok Fixture.rig
     /\ Fixture.run_try "rig" = Ok r)
    /\ (py_float Fixture.float_of_str (Fixture.rig 5 3)%Z = Ok (altitude r)
        /\ py_float Fixture.float_of_str (Fixture.rig 6 3)%Z = Ok (air_flow r)
        /\ py_float Fixture.float_of_str (Fixture.rig 5 7)%Z
           = Ok (resin_diameter r)
        /\ py_float Fixture.float_of_str (Fixture.rig 6 7)%Z = Ok (resin_mass r)
        /\ py_float Fixture.float_of_str (Fixture.rig 7 7)%Z
           = Ok (resin_density r)
        /\ py_float Fixture.float_of_str (Fixture.rig 9 7)%Z
           = Ok (chamber_diameter r))
    /\ (dry_bulb_temperature (inlet r)
        = cell_number Fixture.float_of_str (Fixture.rig 8 3)%Z
        /\ relative_humidity (inlet r)
           = cell_number Fixture.float_of_str (Fixture.rig 9 3)%Z
        /\ co2_level (inlet r)
           = cell_number Fixture.float_of_str (Fixture.rig 10 3)%Z)
    /\ (dry_bulb_temperature (outlet r)
        = cell_number Fixture.float_of_str (Fixture.rig 12 3)%Z
        /\ relative_humidity (outlet r)
           = cell_number Fixture.float_of_str (Fixture.rig 13 3)%Z
        /\ co2_level (outlet r)
           = cell_number Fixture.float_of_str (Fixture.rig 14 3)%Z).
Proof.
  destruct fixture_rig_runs as (r & Hr & _).
  exists r. split; [split; [reflexivity | exact Hr] | ].
  exact (process_file_try_reads_fixed_cells
           Fixture.float_of_str Fixture.GetTWetBulbFromRelHum
           Fixture.GetDryAirEnthalpy Fixture.GetMoistAirDensity
           Fixture.CalcPsychrometricsFromTWetBulb
           psychrolib_SI.GetStandardAtmPressure
           Fixture.fs "rig" Fixture.rig r eq_refl Hr).
Defined.

Lemma process_file_try_report_nonzero_witness :
  exists r : report,
    Fixture.run_try "rig" = Ok r
    /\ resin_diameter r <> 0 /\ resin_mass r <> 0 /\ resin_density r <> 0
    /\ chamber_diameter r <> 0.
Proof.
  destruct fixture_rig_runs as (r & Hr & _).
  exists r. split; [exact Hr | ].
  exact (process_file_try_report_nonzero
           Fixture.float_of_str Fixture.GetTWetBulbFromRelHum
           Fixture.GetDryAirEnthalpy Fixture.GetMoistAirDensity
           Fixture.CalcPsychrometricsFromTWetBulb
           psychrolib_SI.GetStandardAtmPressure Fixture.fs "rig" r Hr).
Defined.

Lemma process_file_try_co2_balance_witness :
  exists r : report,
    Fixture.run_try "rig" = Ok r
    /\ co2_flow (inlet r) = co2_level (inlet r) * air_flow r
    /\ co2_flow (outlet r) = co2_level (outlet r) * air_flow r
    /\ co2_change r
       = air_flow r * (co2_level (outlet r) - co2_level (inlet r))
    /\ co2_change_label r
       = calculate_co2_change_label
           (air_flow r * (co2_level (outlet r) - co2_level (inlet r))).
Proof.
  destruct fixture_rig_runs as (r & Hr & _).
  exists r. split; [exact Hr | ].
  exact (process_file_try_co2_balance
           Fixture.float_of_str Fixture.GetTWetBulbFromRelHum
           Fixture.GetDryAirEnthalpy Fixture.GetMoistAirDensity
           Fixture.CalcPsychrometricsFromTWetBulb
           psychrolib_SI.GetStandardAtmPressure Fixture.fs "rig" r Hr).
Defined.

Lemma process_file_try_library_calls_witness :
  exists r : report,
    Fixture.run_try "rig" = Ok r
    /\ psychrolib_SI.GetStandardAtmPressure (altitude r) = Ok (pressure r)
    /\ Fixture.GetTWetBulbFromRelHum (dry_bulb_temperature (inlet r))
         (relative_humidity (inlet r) / 100) (pressure r)
       = Ok (wet_bulb_temperature (inlet r))
    /\ Fixture.GetTWetBulbFromRelHum (dry_bulb_temperature (outlet r))
         (relative_humidity (outlet r) / 100) (pressure r)
       = Ok (wet_bulb_temperature (outlet r))
    /\ Fixture.GetDryAirEnthalpy (dry_bulb_temperature (inlet r))
       = Ok (dry_air_enthalpy (inlet r))
    /\ Fixture.GetDryAirEnthalpy (dry_bulb_temperature (outlet r))
       = Ok (dry_air_enthalpy (outlet r))
    /\ Fixture.GetMoistAirDensity (dry_bulb_temperature (inlet r))
         (humidity_ratio (inlet r)) (pressure r)
       = Ok (air_density (inlet r)).
Proof.
  destruct fixture_rig_runs as (r & Hr & _).
  exists r. split; [exact Hr | ].
  exact (process_file_try_library_calls
           Fixture.float_of_str Fixture.GetTWetBulbFromRelHum
           Fixture.GetDryAirEnthalpy Fixture.GetMoistAirDensity
           Fixture.CalcPsychrometricsFromTWetBulb
           psychrolib_SI.GetStandardAtmPressure Fixture.fs "rig" r Hr).
Defined.


Lemma process_file_writes_report_witness :
  exists r : report,
    Fixture.run_try "rig" = Ok r
    /\ Fixture.run (Fixture.window "rig")
       = Ok {| entry_file_path := "rig"; text_output := output_message r |}
    /\ altitude r = 0 /\ air_flow r = 10 /\ pressure r = 101325
    /\ wet_bulb_temperature (inlet r) = 25 - 8
    /\ wet_bulb_temperature (outlet r) = 30 - 8
    /\ moist_air_enthalpy (inlet r) = 1006 * 25 + 25000
    /\ moist_air_enthalpy (outlet r) = 1006 * 30 + 25000
    /\ air_density (outlet r) = (1 + 0.00988) / 0.858
    /\ mass_flow r = (1 + 0.00988) / 0.858 * (10 / 1000).
Proof.
  apply (process_file_writes_report
           Fixture.float_of_str Fixture.GetTWetBulbFromRelHum
           Fixture.GetDryAirEnthalpy Fixture.GetMoistAirDensity
           Fixture.CalcPsychrometricsFromTWetBulb
           psychrolib_SI.GetStandardAtmPressure
           Fixture.fs (Fixture.window "rig") Fixture.rig
           0 10 1 1 1000 10 101325
           (25 - 8) 0.00988 (25 - 8 - 3) 0.5 1584 (1006 * 25 + 25000)
           0.858 0.49 (1006 * 25) ((1 + 0.00988) / 0.858)
           (30 - 8) 0.00988 (30 - 8 - 3) 0.5 1584 (1006 * 30 + 25000)
           0.858 0.49 (1006 * 30) ((1 + 0.00988) / 0.858));
    try reflexivity; try lra.
  - intros row Hrow. apply fixture_readings_no_overflow;
      [left; reflexivity | lia].
  - exact sea_level_pressure.
Defined.

Lemma process_file_needs_valid_rig_witness :
  (Fixture.fs ("blank" ++ ".xlsx") = Ok Fixture.blank
   /\ In (5, 3)%Z [(5, 3); (6, 3); (5, 7); (6, 7); (7, 7); (9, 7)]%Z
   /\ py_float Fixture.float_of_str (Fixture.blank 5 3)%Z = Raise TypeError)
  /\ Fixture.run (Fixture.window "blank") = Ok (Fixture.window "blank").
Proof.
  split.
  - split; [reflexivity | split; [simpl; auto | reflexivity]].
  - apply (process_file_needs_valid_rig
             Fixture.float_of_str Fixture.GetTWetBulbFromRelHum
             Fixture.GetDryAirEnthalpy Fixture.GetMoistAirDensity
             Fixture.CalcPsychrometricsFromTWetBulb
             psychrolib_SI.GetStandardAtmPressure
             Fixture.fs (Fixture.window "blank") Fixture.blank 5%Z 3%Z).
    + reflexivity.
    + left. split; [simpl; auto | exists TypeError; reflexivity].
Defined.

Lemma process_file_idempotent_witness :
  exists window' : gui,
    Fixture.run (Fixture.window "rig") = Ok window'
    /\ Fixture.run window' = Ok window'.
Proof.
  destruct fixture_rig_runs as (r & Hr & _).
  assert (Hrun : Fixture.run (Fixture.window "rig")
                 = Ok {| entry_file_path := "rig";
                         text_output := output_message r |}).
  { unfold Fixture.run, process_file. cbv zeta.
    change (entry_file_path (Fixture.window "rig")) with "rig".
    fold (Fixture.run_try "rig"). rewrite Hr. reflexivity. }
  eexists. split; [exact Hrun | ].
  exact (process_file_idempotent
           Fixture.float_of_str Fixture.GetTWetBulbFromRelHum
           Fixture.GetDryAirEnthalpy Fixture.GetMoistAirDensity
           Fixture.CalcPsychrometricsFromTWetBulb
           psychrolib_SI.GetStandardAtmPressure
           Fixture.fs (Fixture.window "rig") _ Hrun).
Defined.
